(** * Review moderation and rating aggregation

    A shallow embedding of [services/reviews/reviews.py]: the three tables
    ([Review], [ReviewResponse], [ReviewSummary]), the summary recomputation
    [update_product_summary] and the request handlers that create, approve,
    reject and rate reviews and list the responses of a review.

    Python values are modelled as the interpreter has them: integers are
    unbounded ([Z]), floats are IEEE binary64 ([PrimFloat.float]), dicts keep
    their insertion order (association lists), and an exception aborts the
    computation that raised it. *)

From Stdlib Require Import ZArith List String Ascii Bool Lia Permutation Sorted.
From Stdlib Require Import PrimFloat SpecFloat FloatOps.
From Stdlib Require Import DecimalString DecimalZ DecimalPos.
Import ListNotations.

Local Open Scope string_scope.
Local Open Scope list_scope.
Local Open Scope Z_scope.

Set Implicit Arguments.
#[local] Set Warnings "-register-all,-inexact-float".

(** ** Exceptions and results *)

Inductive exn : Type :=
| KeyError
| TypeError
| AttributeError
| ValueError
| OverflowError
| ZeroDivisionError
| IntegrityError      (* a primary key inserted twice *)
| OperationalError    (* the storage failed during a commit *)
| ObjectDeletedError  (* an expired object whose row is gone *)
| NotFound.           (* raised by [get_or_404] *)

Inductive result (A : Type) : Type :=
| Ok (a : A)
| Raise (e : exn).

Arguments Ok {A} a.
Arguments Raise {A} e.

Definition rbind {A B} (r : result A) (k : A -> result B) : result B :=
  match r with
  | Ok a => k a
  | Raise e => Raise e
  end.

Notation "'let*' x ':=' r 'in' k" := (rbind r (fun x => k))
  (at level 10, x name, r at level 100, k at level 200).

(** ** JSON values, as [request.get_json()] and the JSON columns hold them *)

Inductive json : Type :=
| JNull
| JBool (b : bool)
| JInt (z : Z)
| JFloat (f : float)
| JStr (s : string)
| JArr (l : list json)
| JObj (kv : list (string * json)).

(** Python truth value ([if review.attributes:]). *)
Definition truthy (j : json) : bool :=
  match j with
  | JNull => false
  | JBool b => b
  | JInt z => negb (z =? 0)
  | JFloat f => negb (PrimFloat.eqb f PrimFloat.zero)
  | JStr s => negb (s =? "")%string
  | JArr l => match l with [] => false | _ => true end
  | JObj kv => match kv with [] => false | _ => true end
  end.

(** ** Dicts: insertion-ordered association lists *)

Definition dict (V : Type) : Type := list (string * V).

Section Dict.
Variable V : Type.

Fixpoint dict_get (k : string) (d : dict V) : option V :=
  match d with
  | [] => None
  | (k', v) :: d' => if (k' =? k)%string then Some v else dict_get k d'
  end.

(** [d[k] = v]: an existing key keeps its position, a new key goes last. *)
Fixpoint dict_set (k : string) (v : V) (d : dict V) : dict V :=
  match d with
  | [] => [(k, v)]
  | (k', v') :: d' =>
      if (k' =? k)%string then (k, v) :: d' else (k', v') :: dict_set k v d'
  end.

Definition keys (d : dict V) : list string := map fst d.

Definition values (d : dict V) : list V := map snd d.
End Dict.

(** ** Python numbers *)

Inductive num : Type :=
| NInt (z : Z)
| NFloat (f : float).

(** The numeric reading of a JSON value; [bool] is a subclass of [int]. *)
Definition as_num (j : json) : option num :=
  match j with
  | JBool b => Some (NInt (Z.b2z b))
  | JInt z => Some (NInt z)
  | JFloat f => Some (NFloat f)
  | _ => None
  end.

(** Magnitudes from [2^1024 - 2^970] on round to infinity in binary64. *)
Definition float_overflow_bound : Z := 2 ^ 1024 - 2 ^ 970.

(** [float(z)]: round to nearest, ties to even; [OverflowError] when the
    integer is too large. *)
Definition float_of_int (z : Z) : result float :=
  if float_overflow_bound <=? Z.abs z then Raise OverflowError
  else Ok (SF2Prim (binary_normalize prec emax z 0 false)).

(** The correctly rounded quotient of two integers. *)
Definition sf_div_int (a b : Z) : spec_float :=
  match a, b with
  | Z0, _ => S754_zero (b <? 0)
  | _, Z0 => S754_nan
  | _, _ => SFdiv prec emax
              (S754_finite (a <? 0) (Z.to_pos (Z.abs a)) 0)
              (S754_finite (b <? 0) (Z.to_pos (Z.abs b)) 0)
  end.

(** [a / b] on two ints (true division). *)
Definition int_truediv (a b : Z) : result float :=
  if b =? 0 then Raise ZeroDivisionError
  else if float_overflow_bound * Z.abs b <=? Z.abs a then Raise OverflowError
  else Ok (SF2Prim (sf_div_int a b)).

Definition to_float (x : num) : result float :=
  match x with
  | NInt z => float_of_int z
  | NFloat f => Ok f
  end.

(** [x + y] *)
Definition py_add (x y : num) : result num :=
  match x, y with
  | NInt a, NInt b => Ok (NInt (a + b))
  | _, _ =>
      let* fx := to_float x in
      let* fy := to_float y in
      Ok (NFloat (PrimFloat.add fx fy))
  end.

(** [x / y] *)
Definition py_truediv (x y : num) : result num :=
  match x, y with
  | NInt a, NInt b => let* q := int_truediv a b in Ok (NFloat q)
  | _, _ =>
      let* fx := to_float x in
      let* fy := to_float y in
      if PrimFloat.eqb fy PrimFloat.zero then Raise ZeroDivisionError
      else Ok (NFloat (PrimFloat.div fx fy))
  end.

(** Nearest integer to [n / d] for [0 <= n] and [0 < d], ties to even. *)
Definition round_half_even_div (n d : Z) : Z :=
  let q := n / d in
  match (2 * (n mod d)) ?= d with
  | Lt => q
  | Gt => q + 1
  | Eq => if Z.even q then q else q + 1
  end.

(** [round(f, 2)] on a float: the exact binary value is rounded to two
    decimals (ties to even) and the decimal is converted back to the nearest
    float; zeros, infinities and NaN are returned as they are. *)
Definition float_round2 (f : float) : float :=
  match Prim2SF f with
  | S754_finite s m e =>
      let n := if 0 <=? e then Zpos m * 100 * 2 ^ e
               else round_half_even_div (Zpos m * 100) (2 ^ (- e)) in
      if n =? 0 then (if s then PrimFloat.neg_zero else PrimFloat.zero)
      else SF2Prim (sf_div_int (if s then - n else n) 100)
  | _ => f
  end.

(** [round(x, 2)]: an int is returned unchanged. *)
Definition py_round2 (x : num) : num :=
  match x with
  | NInt z => NInt z
  | NFloat f => NFloat (float_round2 f)
  end.

(** [str(z)] and [int(s)] on decimal numerals. *)
Definition py_str (z : Z) : string := NilZero.string_of_int (Z.to_int z).

Definition py_int (s : string) : result Z :=
  match NilZero.int_of_string s with
  | Some d => Ok (Z.of_int d)
  | None => Raise ValueError
  end.

(** ** The tables *)

(** Timestamps ([datetime.utcnow()]) are instants on an integer time line. *)
Definition datetime : Type := Z.

Module Review.
Record t : Type := mk {
  id : string;
  product_id : string;
  user_id : string;
  title : string;
  comment : option string;
  rating : Z;
  review_date : datetime;
  photos : json;
  helpfulness : dict json;
  status : string;
  verified_purchase : bool;
  attributes : json
}.

Definition with_status (st : string) (r : t) : t :=
  mk (id r) (product_id r) (user_id r) (title r) (comment r) (rating r)
     (review_date r) (photos r) (helpfulness r) st (verified_purchase r)
     (attributes r).

Definition with_helpfulness (h : dict json) (r : t) : t :=
  mk (id r) (product_id r) (user_id r) (title r) (comment r) (rating r)
     (review_date r) (photos r) h (status r) (verified_purchase r)
     (attributes r).
End Review.

Module ReviewResponse.
Record t : Type := mk {
  id : string;
  review_id : string;
  user_id : string;
  comment : string;
  response_date : datetime;
  is_seller : bool;
  status : string
}.
End ReviewResponse.

Module ReviewSummary.
Record t : Type := mk {
  product_id : string;
  average_rating : num;
  total_reviews : Z;
  distribution : dict Z;
  attribute_averages : dict num;
  last_updated : datetime
}.
End ReviewSummary.

Record DB : Type := mkDB {
  reviews : list Review.t;
  responses : list ReviewResponse.t;
  summaries : list ReviewSummary.t
}.

(** ** The database session

    [store] is the committed database, the one other readers see; [work] is
    the view of the running request, with its uncommitted changes; [inserted]
    lists the primary keys of the reviews added and not yet committed;
    [faults] tells, for each commit to come, whether the storage fails. *)

Record Session : Type := mkSession {
  store : DB;
  work : DB;
  inserted : list string;
  faults : list bool
}.

Definition M (A : Type) : Type := Session -> result A * Session.

Definition ret {A} (a : A) : M A := fun s => (Ok a, s).

Definition bind {A B} (m : M A) (k : A -> M B) : M B :=
  fun s =>
    match m s with
    | (Ok a, s') => k a s'
    | (Raise e, s') => (Raise e, s')
    end.

Definition lift {A} (r : result A) : M A := fun s => (r, s).

(** [try: body  except Exception as e: handler e] *)
Definition try_except {A} (body : M A) (handler : exn -> M A) : M A :=
  fun s =>
    match body s with
    | (Ok a, s') => (Ok a, s')
    | (Raise e, s') => handler e s'
    end.

Declare Scope session_scope.
Delimit Scope session_scope with session.
Notation "x <- m ;; k" := (bind m (fun x => k))
  (at level 61, m at next level, right associativity) : session_scope.
Notation "m ;; k" := (bind m (fun _ => k))
  (at level 61, right associativity) : session_scope.

Definition query {A} (q : DB -> A) : M A := fun s => (Ok (q (work s)), s).

Definition modify (f : DB -> DB) : M unit :=
  fun s => (Ok tt, mkSession (store s) (f (work s)) (inserted s) (faults s)).

Fixpoint has_duplicate (l : list string) : bool :=
  match l with
  | [] => false
  | x :: l' => existsb (String.eqb x) l' || has_duplicate l'
  end.

Definition pk_conflict (new : list string) (db : DB) : bool :=
  has_duplicate new
  || existsb (fun i => existsb (fun r => (Review.id r =? i)%string) (reviews db)) new.

(** [db.session.commit()] *)
Definition commit : M unit :=
  fun s =>
    match faults s with
    | true :: fs =>
        (Raise OperationalError, mkSession (store s) (work s) (inserted s) fs)
    | _ =>
        if pk_conflict (inserted s) (store s)
        then (Raise IntegrityError,
              mkSession (store s) (work s) (inserted s) (tl (faults s)))
        else (Ok tt, mkSession (work s) (work s) [] (tl (faults s)))
    end.

(** [db.session.rollback()] *)
Definition rollback : M unit :=
  fun s => (Ok tt, mkSession (store s) (store s) [] (faults s)).

(** ** Queries *)

(** [Review.query.get(review_id)] *)
Definition get_review (review_id : string) (db : DB) : option Review.t :=
  find (fun r => (Review.id r =? review_id)%string) (reviews db).

(** [Review.query.get_or_404(review_id)] *)
Definition get_or_404 (review_id : string) : M Review.t :=
  fun s =>
    match get_review review_id (work s) with
    | Some r => (Ok r, s)
    | None => (Raise NotFound, s)
    end.

(** [Review.query.filter_by(product_id=product_id, status='approved').all()] *)
Definition approved_reviews (product_id : string) (db : DB) : list Review.t :=
  filter (fun r => (Review.product_id r =? product_id)%string
                   && (Review.status r =? "approved")%string)
         (reviews db).

(** [ReviewSummary.query.get(product_id)] *)
Definition get_summary (product_id : string) (db : DB) : option ReviewSummary.t :=
  find (fun sm => (ReviewSummary.product_id sm =? product_id)%string)
       (summaries db).

(** An attribute assignment on the row of a review held by the session. *)
Fixpoint update_row (review_id : string) (f : Review.t -> Review.t)
         (l : list Review.t) : list Review.t :=
  match l with
  | [] => []
  | r :: l' =>
      if (Review.id r =? review_id)%string then f r :: l'
      else r :: update_row review_id f l'
  end.

Definition set_review (review_id : string) (f : Review.t -> Review.t) : M unit :=
  modify (fun db =>
            mkDB (update_row review_id f (reviews db)) (responses db)
                 (summaries db)).

(** [db.session.add(review)] *)
Definition session_add (review : Review.t) : M unit :=
  fun s =>
    (Ok tt,
     mkSession (store s)
               (mkDB (reviews (work s) ++ [review]) (responses (work s))
                     (summaries (work s)))
               (inserted s ++ [Review.id review]) (faults s)).

(** ** [update_product_summary] *)

(** [{"5": 0, "4": 0, "3": 0, "2": 0, "1": 0}] *)
Definition zero_distribution : dict Z :=
  [("5", 0); ("4", 0); ("3", 0); ("2", 0); ("1", 0)].

(** [for review in reviews: distribution[str(review.rating)] += 1] *)
Fixpoint count_ratings (reviews : list Review.t) (distribution : dict Z)
  : result (dict Z) :=
  match reviews with
  | [] => Ok distribution
  | review :: rest =>
      let key := py_str (Review.rating review) in
      match dict_get key distribution with
      | None => Raise KeyError
      | Some n => count_ratings rest (dict_set key (n + 1) distribution)
      end
  end.

(** [sum(int(key) * value for key, value in distribution.items())] *)
Fixpoint total_ratings_of (items : dict Z) : result Z :=
  match items with
  | [] => Ok 0
  | (key, value) :: rest =>
      let* k := py_int key in
      let* s := total_ratings_of rest in
      Ok (k * value + s)
  end.

(** [sum(distribution.values())] *)
Definition total_reviews_of (distribution : dict Z) : Z :=
  fold_right Z.add 0 (values distribution).

(** The running entry [{"sum": s, "count": c}] of one attribute. *)
Definition tally : Type := (num * Z)%type.

(** The inner loop, over the items of one review:
[[
    if attr not in attributes:
        attributes[attr] = {"sum": 0, "count": 0}
    attributes[attr]["sum"] += value
    attributes[attr]["count"] += 1
]] *)
Fixpoint add_items (items : dict json) (attributes : dict tally)
  : result (dict tally) :=
  match items with
  | [] => Ok attributes
  | (attr, value) :: rest =>
      let '(s, c) := match dict_get attr attributes with
                     | Some entry => entry
                     | None => (NInt 0, 0)
                     end in
      match as_num value with
      | None => Raise TypeError
      | Some v =>
          let* s' := py_add s v in
          add_items rest (dict_set attr (s', c + 1) attributes)
      end
  end.

(** The outer loop: a review whose [attributes] is falsy is skipped, and
    [.items()] exists on dicts only. *)
Fixpoint collect_attributes (reviews : list Review.t) (attributes : dict tally)
  : result (dict tally) :=
  match reviews with
  | [] => Ok attributes
  | review :: rest =>
      if truthy (Review.attributes review) then
        match Review.attributes review with
        | JObj items =>
            let* attributes' := add_items items attributes in
            collect_attributes rest attributes'
        | _ => Raise AttributeError
        end
      else collect_attributes rest attributes
  end.

(** [data["sum"] / data["count"] if data["count"] > 0 else 0] *)
Definition average_of (data : tally) : result num :=
  let '(s, c) := data in
  if c >? 0 then py_truediv s (NInt c) else Ok (NInt 0).

(** [for attr, data in attributes.items(): attribute_averages[attr] = ...] *)
Fixpoint average_attributes (items : dict tally) (attribute_averages : dict num)
  : result (dict num) :=
  match items with
  | [] => Ok attribute_averages
  | (attr, data) :: rest =>
      let* a := average_of data in
      average_attributes rest (dict_set attr a attribute_averages)
  end.

(** The attribute averages of a list of reviews (lines 98 to 109). *)
Definition attribute_averages_of (reviews : list Review.t) : result (dict num) :=
  let* attributes := collect_attributes reviews [] in
  average_attributes attributes [].

(** The values that [update_product_summary] assigns to the summary row of
    [product_id], computed from the approved reviews it has read; [now] is the
    reading of [datetime.utcnow()]. *)
Definition summarize (product_id : string) (now : datetime)
           (reviews : list Review.t) : result ReviewSummary.t :=
  match reviews with
  | [] =>
      Ok (ReviewSummary.mk product_id (NInt 0) 0 zero_distribution [] now)
  | _ =>
      let* distribution := count_ratings reviews zero_distribution in
      let* total_ratings := total_ratings_of distribution in
      let total_reviews := total_reviews_of distribution in
      let* average_rating :=
        (if total_reviews >? 0
         then py_truediv (NInt total_ratings) (NInt total_reviews)
         else Ok (NInt 0)) in
      let* attribute_averages := attribute_averages_of reviews in
      Ok (ReviewSummary.mk product_id (py_round2 average_rating) total_reviews
                           distribution attribute_averages now)
  end.

(** The summary row of the product is fetched, or created and added to the
    session when there is none, and every field is assigned. *)
Fixpoint put_summary (sm : ReviewSummary.t) (l : list ReviewSummary.t)
  : list ReviewSummary.t :=
  match l with
  | [] => [sm]
  | x :: l' =>
      if (ReviewSummary.product_id x =? ReviewSummary.product_id sm)%string
      then sm :: l'
      else x :: put_summary sm l'
  end.

Definition save_summary (sm : ReviewSummary.t) : M unit :=
  modify (fun db => mkDB (reviews db) (responses db) (put_summary sm (summaries db))).

Local Open Scope session_scope.

Definition update_product_summary (product_id : string) (now : datetime) : M unit :=
  reviews <- query (approved_reviews product_id) ;;
  summary <- lift (summarize product_id now reviews) ;;
  save_summary summary.

(** ** Responses of the service *)

Record Response : Type := mkResponse {
  code : Z;
  body : dict json
}.

Definition exn_name (e : exn) : string :=
  match e with
  | KeyError => "KeyError"
  | TypeError => "TypeError"
  | AttributeError => "AttributeError"
  | ValueError => "ValueError"
  | OverflowError => "OverflowError"
  | ZeroDivisionError => "ZeroDivisionError"
  | IntegrityError => "IntegrityError"
  | OperationalError => "OperationalError"
  | ObjectDeletedError => "ObjectDeletedError"
  | NotFound => "NotFound"
  end.

Definition message (m : string) : dict json := [("message", JStr m)].
Definition error (m : string) : dict json := [("error", JStr m)].

(** [jsonify({'error': str(e)}), 500].  The text [str(e)] is the message of
    the exception, which the interpreter or the storage words; the name of
    its class stands for it here. *)
Definition server_error (e : exn) : Response := mkResponse 500 (error (exn_name e)).

Definition open_session (fs : list bool) (db : DB) : Session := mkSession db db [] fs.

(** A request runs in a session of its own, opened on the committed database;
    what it leaves committed is what later requests see.  An exception that
    leaves the handler is answered by the framework: 404 for [NotFound], 500
    for any other.  Of the framework's own error pages only the code is kept,
    with a label for body. *)
Definition run_request (handler : M Response) (fs : list bool) (db : DB)
  : Response * DB :=
  match handler (open_session fs db) with
  | (Ok r, s) => (r, store s)
  | (Raise NotFound, s) => (mkResponse 404 (error "Not Found"), store s)
  | (Raise e, s) => (server_error e, store s)
  end.

(** ** Moderation: [approve_review] and [reject_review] *)

Definition only_pending_approve : Response :=
  mkResponse 400 (error "Apenas avaliações pendentes podem ser aprovadas").

Definition only_pending_reject : Response :=
  mkResponse 400 (error "Apenas avaliações pendentes podem ser rejeitadas").

Definition approve_review (review_id : string) (now : datetime) : M Response :=
  review <- get_or_404 review_id ;;
  if negb (Review.status review =? "pending")%string then ret only_pending_approve
  else
    set_review review_id (Review.with_status "approved") ;;
    try_except
      (commit ;;
       update_product_summary (Review.product_id review) now ;;
       commit ;;
       ret (mkResponse 200 (message "Avaliação aprovada com sucesso")))
      (fun e => rollback ;; ret (server_error e)).

Definition reject_review (review_id : string) : M Response :=
  review <- get_or_404 review_id ;;
  if negb (Review.status review =? "pending")%string then ret only_pending_reject
  else
    set_review review_id (Review.with_status "rejected") ;;
    try_except
      (commit ;;
       ret (mkResponse 200 (message "Avaliação rejeitada com sucesso")))
      (fun e => rollback ;; ret (server_error e)).

(** ** [create_review] *)

(** The JSON body of a create request, field by field: [None] is a key that
    the body does not have.  [d_status] and [d_helpfulness] are keys that the
    handler never reads.  The bodies described are the typed ones: under
    [rating] an integer, which is what the [Integer] column of line 25 holds
    whatever the storage.  (A body with a float or a text under [rating] is
    not one of them: what line 199 and the column make of it is not stated
    here.) *)
Record ReviewData : Type := mkReviewData {
  d_id : option string;
  d_product_id : option string;
  d_user_id : option string;
  d_title : option string;
  d_rating : option Z;
  d_comment : option string;
  d_photos : option json;
  d_verified_purchase : option bool;
  d_attributes : option json;
  d_status : option json;
  d_helpfulness : option json
}.

Definition missing_field (field : string) : Response :=
  mkResponse 400 (error ("Campo obrigatório ausente: " ++ field)).

Definition rating_out_of_range : Response :=
  mkResponse 400 (error "Classificação deve ser entre 1 e 5").

(** The column default of [Review.helpfulness]. *)
Definition default_helpfulness : dict json :=
  [("likes", JInt 0); ("dislikes", JInt 0)].

Definition or_null (j : option json) : json :=
  match j with Some v => v | None => JNull end.

Definition create_review (data : ReviewData) (now : datetime) : M Response :=
  match d_id data, d_product_id data, d_user_id data, d_title data, d_rating data with
  | None, _, _, _, _ => ret (missing_field "id")
  | _, None, _, _, _ => ret (missing_field "product_id")
  | _, _, None, _, _ => ret (missing_field "user_id")
  | _, _, _, None, _ => ret (missing_field "title")
  | _, _, _, _, None => ret (missing_field "rating")
  | Some id, Some product_id, Some user_id, Some title, Some rating =>
      if negb ((1 <=? rating) && (rating <=? 5)) then ret rating_out_of_range
      else
        let review :=
          Review.mk id product_id user_id title (d_comment data) rating now
                    (or_null (d_photos data)) default_helpfulness "pending"
                    (match d_verified_purchase data with
                     | Some b => b
                     | None => false
                     end)
                    (or_null (d_attributes data)) in
        session_add review ;;
        try_except
          (commit ;;
           ret (mkResponse 201 [("id", JStr (Review.id review));
                                ("message", JStr "Avaliação criada com sucesso");
                                ("status", JStr (Review.status review))]))
          (fun e => rollback ;; ret (server_error e))
  end.

(** ** [update_review_helpfulness] *)

(** The JSON body of the request; the values are used as they come. *)
Record HelpfulnessData : Type := mkHelpfulnessData {
  h_likes : option json;
  h_dislikes : option json
}.

Definition set_key (key : string) (value : option json) (h : dict json) : dict json :=
  match value with
  | Some v => dict_set key v h
  | None => h
  end.

(** [review.helpfulness[key] = value] when the body has [key].  The dict that
    the loaded object holds is changed in place.  The column is a plain
    [db.JSON] (line 28), which reports no change for a mutation inside its
    value: the session is told nothing, and the row that it would write stays
    as it is.  Only the object in the hands of the handler changes. *)
Definition set_item (key : string) (value : option json) (review : Review.t)
  : M Review.t :=
  ret (Review.with_helpfulness (set_key key value (Review.helpfulness review)) review).

(** An attribute read on a loaded object after a commit.  The commit has
    expired the object: the attribute is loaded again from its row. *)
Definition refresh (review : Review.t) : M Review.t :=
  fun s =>
    match get_review (Review.id review) (work s) with
    | Some row => (Ok row, s)
    | None => (Raise ObjectDeletedError, s)
    end.

Definition update_review_helpfulness (review_id : string) (data : HelpfulnessData)
  : M Response :=
  review <- get_or_404 review_id ;;
  review <- set_item "likes" (h_likes data) review ;;
  review <- set_item "dislikes" (h_dislikes data) review ;;
  try_except
    (commit ;;
     review <- refresh review ;;
     ret (mkResponse 200 [("helpfulness", JObj (Review.helpfulness review));
                          ("message", JStr "Utilidade atualizada com sucesso")]))
    (fun e => rollback ;; ret (server_error e)).

(** ** The responses listed with a review ([get_product_reviews]) *)

(** [review.responses]: the rows of the relationship, as the table yields them. *)
Definition review_responses (review_id : string) (db : DB) : list ReviewResponse.t :=
  filter (fun x => (ReviewResponse.review_id x =? review_id)%string) (responses db).

(** [review.responses.filter_by(status='active').all()] *)
Definition active_responses (review_id : string) (db : DB) : list ReviewResponse.t :=
  filter (fun x => (ReviewResponse.status x =? "active")%string)
         (review_responses review_id db).

(** The entry of a response under ['responses'] in the listing of a review. *)
Definition response_entry (response : ReviewResponse.t) : dict json :=
  [("id", JStr (ReviewResponse.id response));
   ("comment", JStr (ReviewResponse.comment response));
   ("response_date", JInt (ReviewResponse.response_date response));
   ("is_seller", JBool (ReviewResponse.is_seller response))].

Definition listed_responses (review_id : string) (db : DB) : list (dict json) :=
  map response_entry (active_responses review_id db).

(** ** Vocabulary of the statements *)

(** The distribution dict with the given counters, keys in the order in which
    the code writes them. *)
Definition buckets (c5 c4 c3 c2 c1 : Z) : dict Z :=
  [("5", c5); ("4", c4); ("3", c3); ("2", c2); ("1", c1)].

(** The number of reviews rated [k]. *)
Definition count_of (k : Z) (reviews : list Review.t) : Z :=
  Z.of_nat (List.length (filter (fun r => Review.rating r =? k) reviews)).

(** The invariant of the data model: a rating is one of 1, 2, 3, 4, 5. *)
Definition rating_in_range (r : Review.t) : bool :=
  (1 <=? Review.rating r) && (Review.rating r <=? 5).

(** The summary that the code assigns from the counters of the five ratings. *)
Definition summary_from (product_id : string) (now : datetime)
           (reviews : list Review.t) (average : num) (averages : dict num)
  : ReviewSummary.t :=
  ReviewSummary.mk product_id (py_round2 average)
    (Z.of_nat (List.length reviews))
    (buckets (count_of 5 reviews) (count_of 4 reviews) (count_of 3 reviews)
             (count_of 2 reviews) (count_of 1 reviews))
    averages now.

(** The sum of the ratings: each rating times the number of its reviews. *)
Definition weighted_total (reviews : list Review.t) : Z :=
  1 * count_of 1 reviews + 2 * count_of 2 reviews + 3 * count_of 3 reviews
  + 4 * count_of 4 reviews + 5 * count_of 5 reviews.

(** The counter that a summary holds for rating [k]. *)
Definition counter (k : Z) (sm : ReviewSummary.t) : Z :=
  match dict_get (py_str k) (ReviewSummary.distribution sm) with
  | Some n => n
  | None => 0
  end.

(** What a summary owes to the reviews it was computed from. *)
Record summary_ok (reviews : list Review.t) (sm : ReviewSummary.t) : Prop := {
  all_keys : keys (ReviewSummary.distribution sm) = ["5"; "4"; "3"; "2"; "1"]%string;
  counters : forall k, 1 <= k <= 5 -> counter k sm = count_of k reviews;
  total_is_sum :
    ReviewSummary.total_reviews sm =
    counter 1 sm + counter 2 sm + counter 3 sm + counter 4 sm + counter 5 sm;
  average_positive :
    0 < ReviewSummary.total_reviews sm ->
    exists q,
      py_truediv (NInt (1 * counter 1 sm + 2 * counter 2 sm + 3 * counter 3 sm
                        + 4 * counter 4 sm + 5 * counter 5 sm))
                 (NInt (ReviewSummary.total_reviews sm)) = Ok q
      /\ ReviewSummary.average_rating sm = py_round2 q;
  average_zero :
    ReviewSummary.total_reviews sm = 0 -> ReviewSummary.average_rating sm = NInt 0;
  empty_input :
    reviews = [] ->
    ReviewSummary.average_rating sm = NInt 0
    /\ ReviewSummary.total_reviews sm = 0
    /\ ReviewSummary.distribution sm = zero_distribution
    /\ ReviewSummary.attribute_averages sm = []
}.

(** A review of product ["P"]. *)
Definition sample_review (id : string) (rating : Z) (status : string)
           (attributes : json) : Review.t :=
  Review.mk id "P" "user" "title" None rating 0 JNull default_helpfulness status
            false attributes.

(** Two approved reviews: the first rates the product 5 and scores its
    durability 4, the second rates it 3 and has no attributes. *)
Definition sample_db : DB :=
  mkDB [sample_review "R1" 5 "approved" (JObj [("durability", JInt 4)]);
        sample_review "R2" 3 "approved" JNull]
       [] [].

(** The score that a review gives to attribute [a], when its [attributes]
    mapping has that key. *)
Definition attr_value (a : string) (r : Review.t) : option json :=
  match Review.attributes r with
  | JObj items => dict_get a items
  | _ => None
  end.

(** The scores of attribute [a], one per review that has the key, in the
    order of the reviews. *)
Definition values_of (a : string) (reviews : list Review.t) : list json :=
  flat_map (fun r => match attr_value a r with Some v => [v] | None => [] end)
           reviews.

(** [s + v1 + v2 + ...], added from left to right. *)
Fixpoint sum_from (s : num) (vs : list json) : result num :=
  match vs with
  | [] => Ok s
  | v :: vs' =>
      match as_num v with
      | None => Raise TypeError
      | Some x => let* s' := py_add s x in sum_from s' vs'
      end
  end.

(** The mean of the scores of [a] over the reviews that have the key. *)
Definition mean_of (a : string) (reviews : list Review.t) : result num :=
  let vs := values_of a reviews in
  let* s := sum_from (NInt 0) vs in
  py_truediv s (NInt (Z.of_nat (List.length vs))).

(** A Python dict has each key once. *)
Definition attributes_wf (r : Review.t) : Prop :=
  match Review.attributes r with
  | JObj items => NoDup (keys items)
  | _ => True
  end.

(** One more score [v] on the running entry [e] of an attribute. *)
Definition tally_add (e : option tally) (v : json) : result (option tally) :=
  let '(s, c) := match e with Some entry => entry | None => (NInt 0, 0) end in
  match as_num v with
  | None => Raise TypeError
  | Some x => let* s' := py_add s x in Ok (Some (s', c + 1))
  end.

Fixpoint tally_fold (e : option tally) (vs : list json) : result (option tally) :=
  match vs with
  | [] => Ok e
  | v :: vs' => let* e' := tally_add e v in tally_fold e' vs'
  end.

(** A falsy [attributes] is skipped by the loop; a truthy one has to be a
    dict, or [.items()] raises. *)
Definition attributes_typed (r : Review.t) : Prop :=
  match Review.attributes r with
  | JObj items => NoDup (keys items)
  | j => truthy j = false
  end.

(** The summary of [sample_db], computed at instant 100. *)
Definition sample_summary : ReviewSummary.t :=
  ReviewSummary.mk "P" (NFloat 4) 2
    [("5", 1); ("4", 0); ("3", 1); ("2", 0); ("1", 0)]
    [("durability", NFloat 4)] 100.

(** An integer score ([bool] included, as Python adds it). *)
Definition int_score (v : json) : Prop := exists z, as_num v = Some (NInt z).

(** A review whose attribute scores, if it has any, are all integers. *)
Definition int_scored (r : Review.t) : Prop :=
  match Review.attributes r with
  | JObj items => NoDup (keys items) /\ Forall (fun kv => int_score (snd kv)) items
  | j => truthy j = false
  end.

Definition score_of (v : json) : Z :=
  match as_num v with
  | Some (NInt z) => z
  | _ => 0
  end.

Definition int_sum (vs : list json) : Z :=
  fold_right (fun v acc => score_of v + acc) 0 vs.

(** Two summaries with the same fields, [attribute_averages] compared as
    mappings: the same value, or none, under every key. *)
Definition same_summary (x y : ReviewSummary.t) : Prop :=
  ReviewSummary.product_id x = ReviewSummary.product_id y
  /\ ReviewSummary.average_rating x = ReviewSummary.average_rating y
  /\ ReviewSummary.total_reviews x = ReviewSummary.total_reviews y
  /\ ReviewSummary.distribution x = ReviewSummary.distribution y
  /\ (forall a, dict_get a (ReviewSummary.attribute_averages x)
                = dict_get a (ReviewSummary.attribute_averages y))
  /\ ReviewSummary.last_updated x = ReviewSummary.last_updated y.

Definition same_outcome (x y : result ReviewSummary.t) : Prop :=
  match x, y with
  | Ok a, Ok b => same_summary a b
  | Raise e, Raise e' => e = e'
  | _, _ => False
  end.

(** Three approved reviews of ["P"] that score its durability 3.0, 3.1 and
    3.8. *)
Definition float_scored : list Review.t :=
  [sample_review "F1" 4 "approved" (JObj [("durability", JFloat 3.0)]);
   sample_review "F2" 4 "approved" (JObj [("durability", JFloat 3.1)]);
   sample_review "F3" 4 "approved" (JObj [("durability", JFloat 3.8)])].

(** The average that a summary holds for an attribute, as a float. *)
Definition float_average (a : string) (r : result ReviewSummary.t) : float :=
  match r with
  | Ok sm =>
      match dict_get a (ReviewSummary.attribute_averages sm) with
      | Some (NFloat f) => f
      | _ => PrimFloat.nan
      end
  | Raise _ => PrimFloat.nan
  end.

(** The database after the status of a review is set and committed. *)
Definition with_review_status (review_id st : string) (db : DB) : DB :=
  mkDB (update_row review_id (Review.with_status st) (reviews db)) (responses db)
       (summaries db).

(** Whether the next commit, and the one after it, go through. *)
Definition first_commit_ok (fs : list bool) : Prop := hd false fs = false.
Definition second_commit_ok (fs : list bool) : Prop := hd false (tl fs) = false.

(** The status that the committed database holds for a review. *)
Definition status_of (review_id : string) (db : DB) : option string :=
  option_map Review.status (get_review review_id db).

(** Two pending reviews of product ["P"], and no summary yet. *)
Definition pending_db : DB :=
  mkDB [sample_review "R1" 5 "pending" (JObj [("durability", JInt 4)]);
        sample_review "R2" 3 "pending" JNull]
       [] [].

(** A pending review whose durability score is a word. *)
Definition worded_db : DB :=
  mkDB [sample_review "R1" 5 "pending" (JObj [("durability", JStr "high")])] [] [].

(** [l] is [l'] with some elements left out: the ones kept are in the order
    they have in [l']. *)
Inductive subsequence {A : Type} : list A -> list A -> Prop :=
| sub_nil : subsequence [] []
| sub_skip (x : A) (l l' : list A) : subsequence l l' -> subsequence l (x :: l')
| sub_keep (x : A) (l l' : list A) : subsequence l l' -> subsequence (x :: l) (x :: l').

(** Three responses to review ["R1"], in the order of the table: the first
    is dated 20, the second 10, and the third is inactive. *)
Definition late_first_db : DB :=
  mkDB [sample_review "R1" 5 "approved" JNull]
       [ReviewResponse.mk "A1" "R1" "seller" "thanks" 20 true "active";
        ReviewResponse.mk "A2" "R1" "user" "agreed" 10 false "active";
        ReviewResponse.mk "A3" "R1" "user" "spam" 5 false "inactive"]
       [].

(** * The other routes of the service *)

(** ** [get_product_reviews]: the query and its total

    The ordering by date and the cut into pages are left to the database and
    to the framework; the rows that the query selects, and their number
    ([reviews.total]), do not depend on them. *)

(** [request.args.get('status', 'approved')] *)
Definition status_arg (status : option string) : string :=
  match status with
  | Some st => st
  | None => "approved"
  end.

Definition product_reviews_query (product_id : string) (status : option string)
           (db : DB) : list Review.t :=
  let query := filter (fun r => (Review.product_id r =? product_id)%string)
                      (reviews db) in
  if negb (status_arg status =? "all")%string
  then filter (fun r => (Review.status r =? status_arg status)%string) query
  else query.

Definition listing_total (product_id : string) (status : option string) (db : DB) : Z :=
  Z.of_nat (List.length (product_reviews_query product_id status db)).

(** ** [get_product_review_summary] *)

Definition json_of_num (x : num) : json :=
  match x with
  | NInt z => JInt z
  | NFloat f => JFloat f
  end.

(** The value read back from the [Float] column: an integer that was
    assigned comes back as the float of the same value. *)
Definition column_float (x : num) : float :=
  match x with
  | NInt z => SF2Prim (binary_normalize prec emax z 0 false)
  | NFloat f => f
  end.

Definition summary_body (sm : ReviewSummary.t) : dict json :=
  [("product_id", JStr (ReviewSummary.product_id sm));
   ("average_rating", JFloat (column_float (ReviewSummary.average_rating sm)));
   ("total_reviews", JInt (ReviewSummary.total_reviews sm));
   ("distribution",
    JObj (map (fun kv => (fst kv, JInt (snd kv))) (ReviewSummary.distribution sm)));
   ("attribute_averages",
    JObj (map (fun kv => (fst kv, json_of_num (snd kv)))
              (ReviewSummary.attribute_averages sm)));
   ("last_updated", JInt (ReviewSummary.last_updated sm))].

Definition get_product_review_summary (product_id : string) : M Response :=
  fun s =>
    match get_summary product_id (work s) with
    | Some summary => (Ok (mkResponse 200 (summary_body summary)), s)
    | None => (Raise NotFound, s)
    end.

(** ** [create_review_response] *)

(** The JSON body of the request; [rd_review_id] and [rd_status] are keys
    that the handler never reads. *)
Record ResponseData : Type := mkResponseData {
  rd_id : option string;
  rd_user_id : option string;
  rd_comment : option string;
  rd_is_seller : option bool;
  rd_review_id : option json;
  rd_status : option json
}.

Definition response_conflict (response_id : string) (db : DB) : bool :=
  existsb (fun x => (ReviewResponse.id x =? response_id)%string) (responses db).

(** [db.session.add(response)] *)
Definition session_add_response (response : ReviewResponse.t) : M unit :=
  modify (fun db => mkDB (reviews db) (responses db ++ [response]) (summaries db)).

(** [db.session.commit()] with a new response in the session: the insert
    fails on a primary key that the table already has. *)
Definition commit_response (response : ReviewResponse.t) : M unit :=
  fun s =>
    match faults s with
    | true :: _ => commit s
    | _ =>
        if response_conflict (ReviewResponse.id response) (store s)
        then (Raise IntegrityError,
              mkSession (store s) (work s) (inserted s) (tl (faults s)))
        else commit s
    end.

Definition create_review_response (review_id : string) (data : ResponseData)
           (now : datetime) : M Response :=
  review <- get_or_404 review_id ;;
  match rd_id data, rd_user_id data, rd_comment data with
  | None, _, _ => ret (missing_field "id")
  | _, None, _ => ret (missing_field "user_id")
  | _, _, None => ret (missing_field "comment")
  | Some id, Some user_id, Some comment =>
      let response :=
        ReviewResponse.mk id review_id user_id comment now
                          (match rd_is_seller data with
                           | Some b => b
                           | None => false
                           end)
                          "active" in
      session_add_response response ;;
      try_except
        (commit_response response ;;
         ret (mkResponse 201 [("id", JStr (ReviewResponse.id response));
                              ("message", JStr "Resposta adicionada com sucesso")]))
        (fun e => rollback ;; ret (server_error e))
  end.

(** ** [get_user_reviews] and [get_pending_reviews] *)

Definition json_of_text (t : option string) : json :=
  match t with
  | Some s => JStr s
  | None => JNull
  end.

(** [Review.query.filter_by(user_id=user_id).all()] *)
Definition user_reviews (user_id : string) (db : DB) : list Review.t :=
  filter (fun r => (Review.user_id r =? user_id)%string) (reviews db).

Definition get_user_reviews (user_id : string) (db : DB) : list (dict json) :=
  map (fun review =>
         [("id", JStr (Review.id review));
          ("product_id", JStr (Review.product_id review));
          ("title", JStr (Review.title review));
          ("rating", JInt (Review.rating review));
          ("review_date", JInt (Review.review_date review));
          ("status", JStr (Review.status review))])
      (user_reviews user_id db).

(** [Review.query.filter_by(status='pending').all()] *)
Definition pending_reviews (db : DB) : list Review.t :=
  filter (fun r => (Review.status r =? "pending")%string) (reviews db).

Definition get_pending_reviews (db : DB) : list (dict json) :=
  map (fun review =>
         [("id", JStr (Review.id review));
          ("product_id", JStr (Review.product_id review));
          ("user_id", JStr (Review.user_id review));
          ("title", JStr (Review.title review));
          ("comment", json_of_text (Review.comment review));
          ("rating", JInt (Review.rating review));
          ("review_date", JInt (Review.review_date review))])
      (pending_reviews db).

(** ** The routes that write

    One constructor per route that changes the database, with the arguments
    of its URL, its body and the reading of the clock. *)

Inductive request : Type :=
| CreateReview (data : ReviewData) (now : datetime)
| ApproveReview (review_id : string) (now : datetime)
| RejectReview (review_id : string)
| CreateReviewResponse (review_id : string) (data : ResponseData) (now : datetime)
| UpdateReviewHelpfulness (review_id : string) (data : HelpfulnessData).

Definition handler (rq : request) : M Response :=
  match rq with
  | CreateReview data now => create_review data now
  | ApproveReview review_id now => approve_review review_id now
  | RejectReview review_id => reject_review review_id
  | CreateReviewResponse review_id data now => create_review_response review_id data now
  | UpdateReviewHelpfulness review_id data => update_review_helpfulness review_id data
  end.

Definition serve (rq : request) (fs : list bool) (db : DB) : Response * DB :=
  run_request (handler rq) fs db.

(** A sequence of requests, each with the fate of its commits, served one
    after the other. *)
Fixpoint serve_all (rqs : list (request * list bool)) (db : DB) : DB :=
  match rqs with
  | [] => db
  | (rq, fs) :: rest => serve_all rest (snd (serve rq fs db))
  end.

(** ** Vocabulary of the further statements *)

Definition present {A : Type} (o : option A) : bool :=
  match o with Some _ => true | None => false end.

(** [for field in required_fields: if field not in data: ...]: the first
    required key that the body of a create request lacks. *)
Definition first_missing (data : ReviewData) : option string :=
  option_map fst
    (find (fun field => negb (snd field))
          [("id", present (d_id data));
           ("product_id", present (d_product_id data));
           ("user_id", present (d_user_id data));
           ("title", present (d_title data));
           ("rating", present (d_rating data))]).

(** The validation of a create request: no required key is missing and the
    rating is one of 1..5. *)
Definition valid_review_data (data : ReviewData) : bool :=
  match first_missing data, d_rating data with
  | None, Some rating => (1 <=? rating) && (rating <=? 5)
  | _, _ => false
  end.

(** The primary keys of the reviews, in the order of the table. *)
Definition review_ids (db : DB) : list string := map Review.id (reviews db).

(** Two rows with the same content: every column but [status] and
    [helpfulness]. *)
Definition same_content (r r' : Review.t) : Prop :=
  Review.id r' = Review.id r
  /\ Review.product_id r' = Review.product_id r
  /\ Review.user_id r' = Review.user_id r
  /\ Review.title r' = Review.title r
  /\ Review.comment r' = Review.comment r
  /\ Review.rating r' = Review.rating r
  /\ Review.review_date r' = Review.review_date r
  /\ Review.photos r' = Review.photos r
  /\ Review.verified_purchase r' = Review.verified_purchase r
  /\ Review.attributes r' = Review.attributes r.

(** What one request can do to the table of reviews: nothing, one moderation
    of a pending row, or one new pending row, with a new key and the default
    helpfulness, at the end. *)
Inductive review_step (l : list Review.t) : list Review.t -> Prop :=
| step_none : review_step l l
| step_moderate (review_id st : string) (r : Review.t) :
    find (fun x => (Review.id x =? review_id)%string) l = Some r ->
    Review.status r = "pending"%string ->
    st = "approved"%string \/ st = "rejected"%string ->
    review_step l (update_row review_id (Review.with_status st) l)
| step_create (r : Review.t) :
    find (fun x => (Review.id x =? Review.id r)%string) l = None ->
    Review.status r = "pending"%string ->
    Review.helpfulness r = default_helpfulness ->
    review_step l (l ++ [r]).

(** A day at the service: a review is created, the two pending reviews of
    [pending_db] are approved and rejected, and the approved one is rejected
    again. *)
Definition sample_requests : list (request * list bool) :=
  [(CreateReview (mkReviewData (Some "R3") (Some "P") (Some "user") (Some "title")
                               (Some 2) None None None None None None) 50, []);
   (ApproveReview "R1" 100, []);
   (RejectReview "R2", []);
   (RejectReview "R1", [])].

(** The first required key that the body of a response lacks. *)
Definition first_missing_response (data : ResponseData) : option string :=
  option_map fst
    (find (fun field => negb (snd field))
          [("id", present (rd_id data));
           ("user_id", present (rd_user_id data));
           ("comment", present (rd_comment data))]).

(** What the recomputation reads of a review. *)
Definition rated (r : Review.t) : Z * json := (Review.rating r, Review.attributes r).

(** An integer score that a float can hold. *)
Definition ordinary_score (v : json) : Prop :=
  exists z, as_num v = Some (NInt z) /\ Z.abs z < float_overflow_bound.

(** A review as the data model describes it: a rating in 1..5 and, when it
    has attributes, a dict of ordinary integer scores. *)
Definition ordinary (r : Review.t) : Prop :=
  rating_in_range r = true
  /\ match Review.attributes r with
     | JObj items => NoDup (keys items) /\ Forall (fun kv => ordinary_score (snd kv)) items
     | j => truthy j = false
     end.

(** * Properties *)

Unset Implicit Arguments.

Lemma py_int_str (z : Z) : py_int (py_str z) = Ok z.
Proof.
  unfold py_int, py_str.
  rewrite NilZero.isi.
  - now rewrite DecimalZ.of_to.
  - destruct z; simpl; try discriminate.
    intros [= H]. now apply Unsigned.to_uint_nonnil in H.
  - destruct z; simpl; try discriminate.
    intros [= H]. now apply Unsigned.to_uint_nonnil in H.
Qed.

Lemma py_str_inj (z z' : Z) : py_str z = py_str z' -> z = z'.
Proof.
  intros H. pose proof (py_int_str z) as Hz. rewrite H, py_int_str in Hz.
  now injection Hz.
Qed.

Lemma count_of_cons k r reviews :
  count_of k (r :: reviews) = (if Review.rating r =? k then 1 else 0) + count_of k reviews.
Proof.
  unfold count_of. simpl. destruct (Review.rating r =? k); cbn [List.length]; lia.
Qed.

Lemma bucket_lookup z c5 c4 c3 c2 c1 :
  match dict_get (py_str z) (buckets c5 c4 c3 c2 c1) with
  | Some n =>
      1 <= z <= 5 /\
      n = (if z =? 5 then c5 else if z =? 4 then c4 else if z =? 3 then c3
           else if z =? 2 then c2 else c1) /\
      forall m, dict_set (py_str z) m (buckets c5 c4 c3 c2 c1) =
                buckets (if z =? 5 then m else c5) (if z =? 4 then m else c4)
                        (if z =? 3 then m else c3) (if z =? 2 then m else c2)
                        (if z =? 1 then m else c1)
  | None => ~ (1 <= z <= 5)
  end.
Proof.
  unfold buckets, dict_get, dict_set.
  change "5"%string with (py_str 5); change "4"%string with (py_str 4);
  change "3"%string with (py_str 3); change "2"%string with (py_str 2);
  change "1"%string with (py_str 1).
  repeat match goal with
  | |- context [String.eqb (py_str ?k) (py_str z)] =>
      let E := fresh "E" in
      destruct (String.eqb_spec (py_str k) (py_str z)) as [E | E];
      [ apply py_str_inj in E; subst z; cbn; repeat split; (lia || reflexivity) | ]
  end.
  cbv iota. intros H.
  assert (Hz : z = 1 \/ z = 2 \/ z = 3 \/ z = 4 \/ z = 5) by lia.
  destruct Hz as [-> | [-> | [-> | [-> | ->]]]]; congruence.
Qed.

Lemma count_of_nonneg k reviews : 0 <= count_of k reviews.
Proof. unfold count_of. lia. Qed.

Lemma count_ratings_buckets reviews : forall c5 c4 c3 c2 c1,
  count_ratings reviews (buckets c5 c4 c3 c2 c1) =
  if forallb rating_in_range reviews
  then Ok (buckets (c5 + count_of 5 reviews) (c4 + count_of 4 reviews)
                   (c3 + count_of 3 reviews) (c2 + count_of 2 reviews)
                   (c1 + count_of 1 reviews))
  else Raise KeyError.
Proof.
  induction reviews as [| r reviews IH]; intros c5 c4 c3 c2 c1.
  - cbn. unfold count_of. cbn. now rewrite !Z.add_0_r.
  - cbn [count_ratings forallb].
    pose proof (bucket_lookup (Review.rating r) c5 c4 c3 c2 c1) as L.
    destruct (dict_get _ _) as [n |].
    + destruct L as (Hr & -> & Hset). rewrite Hset, IH.
      replace (rating_in_range r) with true
        by (unfold rating_in_range; symmetry; apply andb_true_iff; lia).
      cbn [andb]. destruct (forallb rating_in_range reviews); [ | reflexivity ].
      rewrite !count_of_cons. f_equal.
      assert (Hz : Review.rating r = 1 \/ Review.rating r = 2 \/ Review.rating r = 3
                   \/ Review.rating r = 4 \/ Review.rating r = 5) by lia.
      destruct Hz as [-> | [-> | [-> | [-> | ->]]]];
        cbn [Z.eqb Pos.eqb]; f_equal; lia.
    + replace (rating_in_range r) with false; [ reflexivity | ].
      unfold rating_in_range. symmetry. apply andb_false_iff. lia.
Qed.

Lemma total_ratings_of_buckets c5 c4 c3 c2 c1 :
  total_ratings_of (buckets c5 c4 c3 c2 c1) =
  Ok (5 * c5 + (4 * c4 + (3 * c3 + (2 * c2 + (1 * c1 + 0))))).
Proof. reflexivity. Qed.

Lemma float_overflow_bound_large : 5 < float_overflow_bound.
Proof. reflexivity. Qed.

Lemma int_truediv_small (t n : Z) :
  0 < n -> 0 <= t <= 5 * n -> exists q, int_truediv t n = Ok q.
Proof.
  intros Hn Ht. unfold int_truediv.
  pose proof float_overflow_bound_large as HB.
  destruct (Z.eqb_spec n 0) as [-> | _]; [ lia | ].
  destruct (Z.leb_spec (float_overflow_bound * Z.abs n) (Z.abs t)) as [H | _].
  - exfalso. revert H HB. generalize float_overflow_bound. intros B H HB. nia.
  - eauto.
Qed.

Lemma count_of_total reviews :
  forallb rating_in_range reviews = true ->
  count_of 5 reviews + count_of 4 reviews + count_of 3 reviews
  + count_of 2 reviews + count_of 1 reviews = Z.of_nat (List.length reviews).
Proof.
  induction reviews as [| r reviews IH]; [ reflexivity | ].
  cbn [forallb]. intros [Hr Hrest]%andb_true_iff. specialize (IH Hrest).
  rewrite !count_of_cons. cbn [List.length]. rewrite Nat2Z.inj_succ.
  unfold rating_in_range in Hr. apply andb_true_iff in Hr.
  assert (Hz : Review.rating r = 1 \/ Review.rating r = 2 \/ Review.rating r = 3
               \/ Review.rating r = 4 \/ Review.rating r = 5) by lia.
  destruct Hz as [-> | [-> | [-> | [-> | ->]]]]; cbn [Z.eqb Pos.eqb]; lia.
Qed.

Lemma summarize_nonempty product_id now reviews :
  reviews <> [] ->
  summarize product_id now reviews =
  if forallb rating_in_range reviews then
    let* average := py_truediv (NInt (weighted_total reviews))
                               (NInt (Z.of_nat (List.length reviews))) in
    let* averages := attribute_averages_of reviews in
    Ok (summary_from product_id now reviews average averages)
  else Raise KeyError.
Proof.
  intros Hne. unfold summarize. destruct reviews as [| r0 rest]; [ congruence | ].
  set (reviews := r0 :: rest) in *.
  change zero_distribution with (buckets 0 0 0 0 0).
  rewrite count_ratings_buckets.
  destruct (forallb rating_in_range reviews) eqn:Hvalid; [ | reflexivity ].
  cbn [rbind]. rewrite total_ratings_of_buckets. cbn [rbind].
  pose proof (count_of_total reviews Hvalid) as Htot.
  unfold total_reviews_of, buckets. cbn [values map snd fold_right].
  rewrite !Z.add_0_l, !Z.add_0_r.
  replace (count_of 5 reviews + (count_of 4 reviews + (count_of 3 reviews
           + (count_of 2 reviews + count_of 1 reviews))))
    with (Z.of_nat (List.length reviews)) by lia.
  replace (5 * count_of 5 reviews + (4 * count_of 4 reviews + (3 * count_of 3 reviews
           + (2 * count_of 2 reviews + 1 * count_of 1 reviews))))
    with (weighted_total reviews) by (unfold weighted_total; lia).
  replace (Z.of_nat (List.length reviews) >? 0) with true
    by (symmetry; apply Z.gtb_lt; subst reviews; cbn [List.length]; lia).
  reflexivity.
Qed.

Lemma weighted_total_bounds reviews :
  forallb rating_in_range reviews = true ->
  0 <= weighted_total reviews <= 5 * Z.of_nat (List.length reviews).
Proof.
  intros H. rewrite <- (count_of_total reviews H). unfold weighted_total.
  pose proof (count_of_nonneg 1 reviews). pose proof (count_of_nonneg 2 reviews).
  pose proof (count_of_nonneg 3 reviews). pose proof (count_of_nonneg 4 reviews).
  pose proof (count_of_nonneg 5 reviews). lia.
Qed.

Lemma get_put_summary sm l :
  find (fun x => (ReviewSummary.product_id x =? ReviewSummary.product_id sm)%string)
       (put_summary sm l) = Some sm.
Proof.
  induction l as [| x l IH]; cbn.
  - now rewrite String.eqb_refl.
  - destruct (String.eqb_spec (ReviewSummary.product_id x) (ReviewSummary.product_id sm)) as [E | E]; cbn.
    + now rewrite String.eqb_refl.
    + apply String.eqb_neq in E. now rewrite E.
Qed.

Lemma counter_cases k sm c5 c4 c3 c2 c1 :
  ReviewSummary.distribution sm = buckets c5 c4 c3 c2 c1 ->
  1 <= k <= 5 ->
  counter k sm = if k =? 5 then c5 else if k =? 4 then c4 else if k =? 3 then c3
                 else if k =? 2 then c2 else c1.
Proof.
  intros Hd Hk. unfold counter. rewrite Hd.
  assert (Hz : k = 1 \/ k = 2 \/ k = 3 \/ k = 4 \/ k = 5) by lia.
  destruct Hz as [-> | [-> | [-> | [-> | ->]]]]; reflexivity.
Qed.

Lemma summarize_ok product_id now reviews sm :
  summarize product_id now reviews = Ok sm ->
  ReviewSummary.product_id sm = product_id /\ summary_ok reviews sm.
Proof.
  destruct reviews as [| r0 rest].
  - cbn. intros [= <-]. split; [ reflexivity | ].
    split; cbn; try reflexivity; try lia.
    + intros k Hk. rewrite (counter_cases k _ 0 0 0 0 0); try easy.
      unfold count_of. cbn.
      repeat match goal with |- context [k =? ?n] => destruct (k =? n) end; reflexivity.
    + auto.
  - set (reviews := r0 :: rest). intros H.
    rewrite summarize_nonempty in H by (subst reviews; discriminate).
    destruct (forallb rating_in_range reviews) eqn:Hvalid; [ | discriminate ].
    destruct (py_truediv _ _) as [average |] eqn:Hdiv; [ | discriminate ].
    destruct (attribute_averages_of reviews) as [averages |]; [ | discriminate ].
    cbn [rbind] in H. injection H as <-. split; [ reflexivity | ].
    pose proof (count_of_total reviews Hvalid) as Htot.
    assert (Hc : forall k, 1 <= k <= 5 ->
              counter k (summary_from product_id now reviews average averages)
              = count_of k reviews).
    { intros k Hk. rewrite (counter_cases k (summary_from product_id now reviews average averages)
                 (count_of 5 reviews) (count_of 4 reviews) (count_of 3 reviews)
                 (count_of 2 reviews) (count_of 1 reviews) eq_refl Hk).
      assert (Hz : k = 1 \/ k = 2 \/ k = 3 \/ k = 4 \/ k = 5) by lia.
      destruct Hz as [-> | [-> | [-> | [-> | ->]]]]; reflexivity. }
    split.
    + reflexivity.
    + exact Hc.
    + rewrite !Hc by lia. cbn [summary_from ReviewSummary.total_reviews]. lia.
    + intros _. rewrite !Hc by lia. exists average. split; [ exact Hdiv | reflexivity ].
    + cbn [summary_from ReviewSummary.total_reviews]. subst reviews.
      cbn [List.length]. lia.
    + subst reviews. discriminate.
Qed.

(** ** The recomputed summary *)

Lemma update_product_summary_unfold product_id now s :
  update_product_summary product_id now s =
  match summarize product_id now (approved_reviews product_id (work s)) with
  | Ok sm =>
      (Ok tt,
       mkSession (store s)
                 (mkDB (reviews (work s)) (responses (work s))
                       (put_summary sm (summaries (work s))))
                 (inserted s) (faults s))
  | Raise e => (Raise e, s)
  end.
Proof.
  unfold update_product_summary, bind, query, lift, save_summary, modify.
  now destruct (summarize _ _ _).
Qed.

(** C1. Whatever approved reviews [update_product_summary] reads for a
    product, the summary row it leaves has the five rating keys, each counter
    is the number of reviews with that rating, [total_reviews] is the sum of
    the five counters, [average_rating] is [round(sum of rating * counter /
    total_reviews, 2)] when [total_reviews > 0] and [0] otherwise, and for no
    review at all the row is the zero summary with an empty
    [attribute_averages].  The function does return when every rating is in
    1..5 and the attribute scores average without an exception. *)
Theorem update_product_summary_correct (product_id : string) (now : datetime)
        (s : Session) :
  let reviews := approved_reviews product_id (work s) in
  (forallb rating_in_range reviews = true ->
   (exists averages, attribute_averages_of reviews = Ok averages) ->
   exists s', update_product_summary product_id now s = (Ok tt, s'))
  /\
  (forall s', update_product_summary product_id now s = (Ok tt, s') ->
   exists sm, get_summary product_id (work s') = Some sm /\ summary_ok reviews sm).
Proof.
  intros reviews. rewrite update_product_summary_unfold. fold reviews. split.
  - intros Hvalid [averages Havg].
    destruct reviews as [| r0 rest] eqn:E; [ cbn; eauto | ].
    rewrite <- E in *. rewrite summarize_nonempty by (rewrite E; discriminate).
    rewrite Hvalid, Havg.
    destruct (int_truediv_small (weighted_total reviews) (Z.of_nat (List.length reviews)))
      as [q Hq].
    + rewrite E. cbn [List.length]. lia.
    + now apply weighted_total_bounds.
    + cbn [py_truediv]. rewrite Hq. cbn [rbind]. eauto.
  - intros s'. destruct (summarize product_id now reviews) as [sm | e] eqn:Hsm;
      [ | discriminate ].
    intros [= <-]. apply summarize_ok in Hsm as [Hid Hok].
    exists sm. split; [ | exact Hok ].
    unfold get_summary. cbn [work summaries]. rewrite <- Hid. apply get_put_summary.
Qed.

Lemma update_product_summary_correct_witness :
  (exists s', update_product_summary "P" 100 (open_session [] sample_db) = (Ok tt, s'))
  /\ exists sm,
       get_summary "P"
         (work (snd (update_product_summary "P" 100 (open_session [] sample_db))))
       = Some sm
       /\ summary_ok (approved_reviews "P" sample_db) sm.
Proof.
  destruct (update_product_summary_correct "P" 100 (open_session [] sample_db))
    as [Hreturns Hsummary].
  split.
  - apply Hreturns; [ reflexivity | eexists; reflexivity ].
  - exact (Hsummary _ eq_refl).
Defined.

(** ** Dicts *)

Section DictFacts.
Context {V : Type}.
Implicit Types (d : dict V) (k : string) (v : V).

Lemma dict_get_set_same k v d : dict_get k (dict_set k v d) = Some v.
Proof.
  induction d as [| [k' v'] d IH]; cbn.
  - now rewrite String.eqb_refl.
  - destruct (String.eqb_spec k' k) as [-> | E]; cbn.
    + now rewrite String.eqb_refl.
    + apply String.eqb_neq in E. now rewrite E.
Qed.

Lemma dict_get_set_other k k' v d :
  k <> k' -> dict_get k' (dict_set k v d) = dict_get k' d.
Proof.
  intros Hne. induction d as [| [k0 v0] d IH]; cbn.
  - apply String.eqb_neq in Hne. now rewrite Hne.
  - destruct (String.eqb_spec k0 k) as [-> | E]; cbn.
    + apply String.eqb_neq in Hne. now rewrite Hne.
    + now rewrite IH.
Qed.

Lemma dict_get_none k d : dict_get k d = None <-> ~ In k (keys d).
Proof.
  induction d as [| [k' v'] d IH]; cbn.
  - tauto.
  - destruct (String.eqb_spec k' k) as [-> | E].
    + split; [ discriminate | tauto ].
    + rewrite IH. tauto.
Qed.

Lemma dict_get_some k d : (exists v, dict_get k d = Some v) <-> In k (keys d).
Proof.
  pose proof (dict_get_none k d) as H.
  destruct (dict_get k d) as [v |] eqn:E.
  - split; [ intros _ | eauto ].
    destruct (in_dec string_dec k (keys d)) as [Hin | Hn]; [ exact Hin | ].
    apply H in Hn. discriminate.
  - split; [ intros [v [=]] | ]. intros Hin. now apply H in Hin.
Qed.

Lemma keys_dict_set k v d k' :
  In k' (keys (dict_set k v d)) <-> k' = k \/ In k' (keys d).
Proof.
  induction d as [| [k0 v0] d IH]; cbn.
  - intuition congruence.
  - destruct (String.eqb_spec k0 k) as [-> | E]; cbn.
    + intuition congruence.
    + rewrite IH. intuition congruence.
Qed.

Lemma NoDup_keys_dict_set k v d : NoDup (keys d) -> NoDup (keys (dict_set k v d)).
Proof.
  induction d as [| [k0 v0] d IH]; cbn; intros Hnd.
  - constructor; [ tauto | constructor ].
  - inversion Hnd as [| ? ? Hnotin Hnd']; subst.
    destruct (String.eqb_spec k0 k) as [-> | E]; cbn.
    + now constructor.
    + constructor; [ | now apply IH ].
      change (~ In k0 (keys (dict_set k v d))). rewrite keys_dict_set.
      intros [-> | Hin]; tauto.
Qed.
End DictFacts.

(** ** Attribute averages *)

Lemma add_items_keys items : forall acc acc',
  NoDup (keys acc) -> add_items items acc = Ok acc' -> NoDup (keys acc').
Proof.
  induction items as [| [k v] items IH]; intros acc acc' Hnd; cbn.
  - now intros [= <-].
  - destruct (match dict_get k acc with Some e => e | None => (NInt 0, 0) end) as [s c].
    destruct (as_num v) as [x |]; [ | discriminate ].
    destruct (py_add s x) as [s' |]; [ | discriminate ]. cbn [rbind].
    apply IH. now apply NoDup_keys_dict_set.
Qed.

Lemma add_items_get items : forall acc acc',
  NoDup (keys items) ->
  add_items items acc = Ok acc' ->
  forall a,
    match dict_get a items with
    | Some v => tally_add (dict_get a acc) v
    | None => Ok (dict_get a acc)
    end = Ok (dict_get a acc').
Proof.
  induction items as [| [k v] items IH]; intros acc acc' Hnd; cbn.
  - now intros [= <-].
  - inversion Hnd as [| ? ? Hk Hnd']; subst. intros Hrun a.
    destruct (match dict_get k acc with Some e => e | None => (NInt 0, 0) end)
      as [s c] eqn:Hentry.
    destruct (as_num v) as [x |] eqn:Hv; [ | discriminate ].
    destruct (py_add s x) as [s' |] eqn:Hadd; [ | discriminate ]. cbn [rbind] in Hrun.
    specialize (IH _ _ Hnd' Hrun a).
    destruct (String.eqb_spec k a) as [-> | Hne].
    + apply dict_get_none in Hk. rewrite Hk in IH.
      rewrite dict_get_set_same in IH. rewrite <- IH.
      unfold tally_add. rewrite Hentry, Hv, Hadd. reflexivity.
    + now rewrite dict_get_set_other in IH by exact Hne.
Qed.

Lemma attr_value_falsy a r : truthy (Review.attributes r) = false -> attr_value a r = None.
Proof.
  unfold attr_value. destruct (Review.attributes r) as [| | | | | | kv]; try reflexivity.
  destruct kv; [ reflexivity | discriminate ].
Qed.

Lemma collect_attributes_keys reviews : forall acc acc',
  NoDup (keys acc) -> collect_attributes reviews acc = Ok acc' -> NoDup (keys acc').
Proof.
  induction reviews as [| r reviews IH]; intros acc acc' Hnd; cbn.
  - now intros [= <-].
  - destruct (truthy (Review.attributes r)); [ | now apply IH ].
    destruct (Review.attributes r); try discriminate.
    destruct (add_items kv acc) as [acc1 |] eqn:H1; [ | discriminate ]. cbn [rbind].
    apply IH. eapply add_items_keys; eauto.
Qed.

Lemma collect_attributes_get reviews : forall acc acc',
  Forall attributes_wf reviews ->
  collect_attributes reviews acc = Ok acc' ->
  forall a, tally_fold (dict_get a acc) (values_of a reviews) = Ok (dict_get a acc').
Proof.
  induction reviews as [| r reviews IH]; intros acc acc' Hwf; cbn [collect_attributes].
  - now intros [= <-].
  - inversion Hwf as [| ? ? Hr Hwf']; subst. intros Hrun a.
    cbn [values_of flat_map]. fold (values_of a reviews).
    destruct (truthy (Review.attributes r)) eqn:Ht.
    + unfold attributes_wf in Hr. unfold attr_value.
      destruct (Review.attributes r) as [| | | | | | items]; try discriminate.
      destruct (add_items items acc) as [acc1 |] eqn:H1; [ | discriminate ].
      cbn [rbind] in Hrun.
      pose proof (add_items_get _ _ _ Hr H1 a) as Hstep.
      specialize (IH _ _ Hwf' Hrun a).
      destruct (dict_get a items) as [v |]; cbn [app tally_fold].
      * rewrite Hstep. exact IH.
      * injection Hstep as ->. exact IH.
    + rewrite (attr_value_falsy a r Ht). cbn [app]. now apply IH.
Qed.

Lemma tally_fold_sum vs : forall e,
  tally_fold e vs =
  match vs with
  | [] => Ok e
  | _ :: _ =>
      let '(s, c) := match e with Some entry => entry | None => (NInt 0, 0) end in
      let* s' := sum_from s vs in
      Ok (Some (s', c + Z.of_nat (List.length vs)))
  end.
Proof.
  induction vs as [| v vs IH]; intros e; [ reflexivity | ].
  cbn [tally_fold sum_from]. unfold tally_add.
  destruct (match e with Some entry => entry | None => (NInt 0, 0) end) as [s c].
  destruct (as_num v) as [x |]; [ | reflexivity ].
  destruct (py_add s x) as [s' |]; [ | reflexivity ]. cbn [rbind].
  rewrite IH. destruct vs as [| v' vs].
  - cbn. reflexivity.
  - cbn [List.length]. destruct (sum_from s' (v' :: vs)); cbn [rbind]; [ | reflexivity ].
    do 3 f_equal. lia.
Qed.

Lemma average_attributes_get items : forall out out',
  NoDup (keys items) ->
  average_attributes items out = Ok out' ->
  forall a,
    match dict_get a items with
    | Some data => exists m, average_of data = Ok m /\ dict_get a out' = Some m
    | None => dict_get a out' = dict_get a out
    end.
Proof.
  induction items as [| [k data] items IH]; intros out out' Hnd; cbn.
  - now intros [= <-].
  - inversion Hnd as [| ? ? Hk Hnd']; subst. intros Hrun a.
    destruct (average_of data) as [m |] eqn:Hm; [ | discriminate ]. cbn [rbind] in Hrun.
    specialize (IH _ _ Hnd' Hrun a).
    destruct (String.eqb_spec k a) as [-> | Hne].
    + apply dict_get_none in Hk. rewrite Hk in IH.
      rewrite dict_get_set_same in IH. eauto.
    + destruct (dict_get a items); [ exact IH | ].
      now rewrite dict_get_set_other in IH by exact Hne.
Qed.

Lemma values_of_nil a reviews :
  values_of a reviews = [] <-> forall r, In r reviews -> attr_value a r = None.
Proof.
  induction reviews as [| r reviews IH]; cbn [values_of flat_map].
  - split; [ intros _ r [] | reflexivity ].
  - fold (values_of a reviews). destruct (attr_value a r) as [v |] eqn:E; cbn [app].
    + split; [ discriminate | ]. intros H. specialize (H r (or_introl eq_refl)). congruence.
    + rewrite IH. split.
      * intros H r' [<- | Hin]; auto.
      * intros H r' Hin. apply H. now right.
Qed.

(** The entry of an attribute among the averages: the mean of its scores when
    some review has the key, and no entry otherwise. *)
Lemma attribute_averages_get reviews averages :
  Forall attributes_wf reviews ->
  attribute_averages_of reviews = Ok averages ->
  forall a,
    match values_of a reviews with
    | [] => dict_get a averages = None
    | _ :: _ => exists m, mean_of a reviews = Ok m /\ dict_get a averages = Some m
    end.
Proof.
  intros Hwf. unfold attribute_averages_of.
  destruct (collect_attributes reviews []) as [attributes |] eqn:Hc; [ | discriminate ].
  cbn [rbind]. intros Havg a.
  pose proof (collect_attributes_get _ _ _ Hwf Hc a) as Hget.
  assert (Hnd : NoDup (keys attributes))
    by (eapply collect_attributes_keys; [ | exact Hc ]; constructor).
  pose proof (average_attributes_get _ _ _ Hnd Havg a) as Hout.
  rewrite tally_fold_sum in Hget. cbn [dict_get] in Hget. unfold mean_of.
  destruct (values_of a reviews) as [| v vs] eqn:Hvs.
  - injection Hget as Hget. rewrite <- Hget in Hout. exact Hout.
  - cbv zeta in Hget |- *.
    destruct (sum_from (NInt 0) (v :: vs)) as [s |]; [ | discriminate ].
    cbn [rbind] in Hget |- *. injection Hget as Hget. rewrite <- Hget in Hout.
    destruct Hout as (m & Hm & Hlook). exists m. split; [ | exact Hlook ].
    unfold average_of in Hm. cbn [List.length Z.of_nat]. exact Hm.
Qed.

Lemma summarize_attribute_averages product_id now reviews sm :
  summarize product_id now reviews = Ok sm ->
  attribute_averages_of reviews = Ok (ReviewSummary.attribute_averages sm).
Proof.
  destruct reviews as [| r0 rest].
  - cbn. now intros [= <-].
  - rewrite summarize_nonempty by discriminate.
    destruct (forallb _ _); [ | discriminate ].
    destruct (py_truediv _ _); [ | discriminate ]. cbn [rbind].
    destruct (attribute_averages_of _); [ | discriminate ]. now intros [= <-].
Qed.

Lemma values_of_in a reviews :
  values_of a reviews <> [] <-> exists r, In r reviews /\ attr_value a r <> None.
Proof.
  split.
  - intros Hne. destruct (values_of a reviews) as [| v vs] eqn:E; [ congruence | ].
    assert (Hin : In v (values_of a reviews)) by (rewrite E; now left).
    unfold values_of in Hin. apply in_flat_map in Hin as (r & Hr & Hv).
    exists r. split; [ exact Hr | ]. now destruct (attr_value a r).
  - intros (r & Hr & Hv) Hnil. rewrite values_of_nil in Hnil. auto.
Qed.

(** C5. In the summary computed from a list of reviews, [attribute_averages]
    has exactly the keys that occur in the [attributes] mapping of some
    review, and maps each of them to the mean of its scores over the reviews
    that have the key: a review without the key adds nothing to the sum and
    nothing to the count. *)
Theorem attribute_averages_mean (product_id : string) (now : datetime)
        (reviews : list Review.t) (sm : ReviewSummary.t) :
  Forall attributes_wf reviews ->
  summarize product_id now reviews = Ok sm ->
  forall a,
    (In a (keys (ReviewSummary.attribute_averages sm)) <->
     exists r, In r reviews /\ attr_value a r <> None)
    /\ (In a (keys (ReviewSummary.attribute_averages sm)) ->
        exists m,
          dict_get a (ReviewSummary.attribute_averages sm) = Some m
          /\ mean_of a reviews = Ok m).
Proof.
  intros Hwf Hsm a. apply summarize_attribute_averages in Hsm.
  pose proof (attribute_averages_get _ _ Hwf Hsm a) as H.
  rewrite <- values_of_in, <- dict_get_some.
  destruct (values_of a reviews) as [| v vs].
  - rewrite H. split; [ | intros [m [=]] ].
    split; [ intros [m [=]] | congruence ].
  - destruct H as (m & Hmean & Hget). split.
    + split; [ discriminate | eauto ].
    + intros _. eauto.
Qed.

Lemma attribute_averages_mean_witness :
  exists m,
    dict_get "durability" (ReviewSummary.attribute_averages sample_summary) = Some m
    /\ mean_of "durability" (reviews sample_db) = Ok m.
Proof.
  refine (proj2 (attribute_averages_mean "P" 100 (reviews sample_db) sample_summary
                   _ eq_refl "durability") _).
  - repeat constructor; cbn; tauto.
  - cbn. tauto.
Defined.

Lemma dict_get_in {V : Type} (k : string) (v : V) (d : dict V) :
  NoDup (keys d) -> In (k, v) d -> dict_get k d = Some v.
Proof.
  induction d as [| [k' v'] d IH]; cbn; [ tauto | ].
  intros Hnd [[= -> ->] | Hin].
  - now rewrite String.eqb_refl.
  - inversion Hnd as [| ? ? Hk Hnd']; subst.
    destruct (String.eqb_spec k' k) as [-> | _]; [ | now apply IH ].
    exfalso. apply Hk. change (In k (keys d)). unfold keys.
    now apply (in_map fst d (k, v)).
Qed.

Lemma add_items_total items : forall acc,
  NoDup (keys items) ->
  (forall k v, In (k, v) items -> exists e, tally_add (dict_get k acc) v = Ok e) ->
  exists acc', add_items items acc = Ok acc'.
Proof.
  induction items as [| [k v] items IH]; intros acc Hnd Hstep; cbn.
  - eauto.
  - inversion Hnd as [| ? ? Hk Hnd']; subst.
    destruct (Hstep k v (or_introl eq_refl)) as [e He]. unfold tally_add in He.
    destruct (match dict_get k acc with Some en => en | None => (NInt 0, 0) end) as [s c].
    destruct (as_num v) as [x |]; [ | discriminate ].
    destruct (py_add s x) as [s' |]; [ | discriminate ]. cbn [rbind].
    apply IH; [ exact Hnd' | ]. intros k' v' Hin.
    rewrite dict_get_set_other.
    + apply Hstep. now right.
    + intros ->. apply Hk. change (In k' (keys items)). unfold keys.
      now apply (in_map fst items (k', v')).
Qed.

Lemma attributes_typed_wf r : attributes_typed r -> attributes_wf r.
Proof.
  unfold attributes_typed, attributes_wf. now destruct (Review.attributes r).
Qed.

Lemma collect_attributes_total reviews : forall acc,
  Forall attributes_typed reviews ->
  (forall a, exists e, tally_fold (dict_get a acc) (values_of a reviews) = Ok e) ->
  exists acc', collect_attributes reviews acc = Ok acc'.
Proof.
  induction reviews as [| r reviews IH]; intros acc Hty Hfold; cbn [collect_attributes].
  - eauto.
  - inversion Hty as [| ? ? Hr Hty']; subst.
    destruct (truthy (Review.attributes r)) eqn:Ht.
    + unfold attributes_typed in Hr.
      assert (Hval : forall a, attr_value a r =
                match Review.attributes r with JObj items => dict_get a items | _ => None end)
        by reflexivity.
      destruct (Review.attributes r) as [| | | | | | items]; try congruence.
      destruct (add_items_total items acc Hr) as [acc1 H1].
      { intros k v Hin. destruct (Hfold k) as [e He].
        cbn [values_of flat_map] in He. rewrite Hval, (dict_get_in k v items Hr Hin) in He.
        cbn [app tally_fold] in He.
        destruct (tally_add (dict_get k acc) v); [ eauto | discriminate ]. }
      rewrite H1. cbn [rbind]. apply IH; [ exact Hty' | ]. intros a.
      destruct (Hfold a) as [e He]. cbn [values_of flat_map] in He.
      fold (values_of a reviews) in He. rewrite Hval in He.
      pose proof (add_items_get _ _ _ Hr H1 a) as Hstep.
      destruct (dict_get a items) as [v |]; cbn [app tally_fold] in He.
      * rewrite Hstep in He. cbn [rbind] in He. eauto.
      * injection Hstep as Hstep. rewrite <- Hstep. eauto.
    + apply IH; [ exact Hty' | ]. intros a. destruct (Hfold a) as [e He].
      cbn [values_of flat_map] in He. rewrite (attr_value_falsy a r Ht) in He. eauto.
Qed.

Lemma average_attributes_total items : forall out,
  (forall k data, In (k, data) items -> exists m, average_of data = Ok m) ->
  exists out', average_attributes items out = Ok out'.
Proof.
  induction items as [| [k data] items IH]; intros out Havg; cbn.
  - eauto.
  - destruct (Havg k data (or_introl eq_refl)) as [m ->]. cbn [rbind].
    apply IH. intros k' data' Hin. apply (Havg k' data'). now right.
Qed.

Lemma average_attributes_raise items : forall out e,
  average_attributes items out = Raise e ->
  exists k data, In (k, data) items /\ average_of data = Raise e.
Proof.
  induction items as [| [k data] items IH]; intros out e; cbn; [ discriminate | ].
  destruct (average_of data) as [m |] eqn:Hm; cbn [rbind].
  - intros H. destruct (IH _ _ H) as (k' & data' & Hin & Hr). eauto 6.
  - intros [= <-]. eauto 6.
Qed.

(** The averaging returns as soon as each review's [attributes] is falsy or a
    dict and the mean of every attribute is computed without an exception. *)
Lemma attribute_averages_total reviews :
  Forall attributes_typed reviews ->
  (forall a, values_of a reviews <> [] -> exists m, mean_of a reviews = Ok m) ->
  exists averages, attribute_averages_of reviews = Ok averages.
Proof.
  intros Hty Hmean. unfold attribute_averages_of.
  assert (Hwf : Forall attributes_wf reviews)
    by (eapply Forall_impl; [ | exact Hty ]; apply attributes_typed_wf).
  destruct (collect_attributes_total reviews [] Hty) as [attributes Hc].
  { intros a. rewrite tally_fold_sum. cbn [dict_get].
    destruct (values_of a reviews) as [| v vs] eqn:E; [ eauto | ].
    destruct (Hmean a) as [m Hm]; [ congruence | ]. unfold mean_of in Hm. rewrite E in Hm.
    cbv zeta in Hm |- *.
    destruct (sum_from (NInt 0) (v :: vs)); [ cbn [rbind]; eauto | discriminate ]. }
  rewrite Hc. cbn [rbind]. apply average_attributes_total. intros k data Hin.
  assert (Hnd : NoDup (keys attributes))
    by (eapply collect_attributes_keys; [ | exact Hc ]; constructor).
  pose proof (collect_attributes_get _ _ _ Hwf Hc k) as Hget.
  rewrite (dict_get_in k data attributes Hnd Hin), tally_fold_sum in Hget.
  cbn [dict_get] in Hget.
  destruct (values_of k reviews) as [| v vs] eqn:E; [ discriminate | ].
  destruct (Hmean k) as [m Hm]; [ congruence | ]. unfold mean_of in Hm. rewrite E in Hm.
  cbv zeta in Hm, Hget.
  destruct (sum_from (NInt 0) (v :: vs)) as [s |]; [ | discriminate ].
  cbn [rbind] in Hm, Hget. injection Hget as <-. exists m. exact Hm.
Qed.

(** ** The order of the reviews *)

Lemma count_of_perm k reviews reviews' :
  Permutation reviews reviews' -> count_of k reviews = count_of k reviews'.
Proof.
  induction 1 as [| r l l' _ IH | r r' l | l l' l'' _ IH1 _ IH2].
  - reflexivity.
  - now rewrite !count_of_cons, IH.
  - rewrite !count_of_cons. lia.
  - congruence.
Qed.

Lemma forallb_perm {A : Type} (f : A -> bool) l l' :
  Permutation l l' -> forallb f l = forallb f l'.
Proof.
  induction 1 as [| r l l' _ IH | r r' l | l l' l'' _ IH1 _ IH2]; cbn.
  - reflexivity.
  - now rewrite IH.
  - now destruct (f r), (f r').
  - congruence.
Qed.

Lemma weighted_total_perm reviews reviews' :
  Permutation reviews reviews' -> weighted_total reviews = weighted_total reviews'.
Proof.
  intros H. unfold weighted_total. now rewrite !(count_of_perm _ _ _ H).
Qed.

Lemma values_of_perm a reviews reviews' :
  Permutation reviews reviews' ->
  Permutation (values_of a reviews) (values_of a reviews').
Proof. intros H. unfold values_of. now apply Permutation_flat_map. Qed.

Lemma int_sum_perm vs vs' : Permutation vs vs' -> int_sum vs = int_sum vs'.
Proof.
  unfold int_sum. induction 1 as [| v l l' _ IH | v v' l | l l' l'' _ IH1 _ IH2]; cbn.
  - reflexivity.
  - now rewrite IH.
  - lia.
  - congruence.
Qed.

Lemma sum_from_int vs : Forall int_score vs ->
  forall s, sum_from (NInt s) vs = Ok (NInt (s + int_sum vs)).
Proof.
  induction 1 as [| v vs [z Hz] _ IH]; intros s; cbn [sum_from].
  - cbn. now rewrite Z.add_0_r.
  - rewrite Hz. cbn [py_add rbind]. rewrite IH. unfold int_sum, score_of. cbn [fold_right].
    rewrite Hz. do 2 f_equal. lia.
Qed.

Lemma int_scored_typed r : int_scored r -> attributes_typed r.
Proof.
  unfold int_scored, attributes_typed.
  destruct (Review.attributes r); try easy; now intros [H _].
Qed.

Lemma values_of_int a reviews :
  Forall int_scored reviews -> Forall int_score (values_of a reviews).
Proof.
  induction 1 as [| r reviews Hr _ IH]; cbn [values_of flat_map]; [ constructor | ].
  apply Forall_app. split; [ | exact IH ].
  unfold int_scored in Hr. unfold attr_value.
  destruct (Review.attributes r) as [| | | | | | items]; try constructor.
  destruct Hr as [_ Hall]. induction Hall as [| [k v] items Hv _ IHi]; cbn.
  - constructor.
  - destruct (k =? a)%string; [ repeat constructor; exact Hv | exact IHi ].
Qed.

Lemma mean_of_int a reviews :
  Forall int_scored reviews ->
  mean_of a reviews =
  py_truediv (NInt (int_sum (values_of a reviews)))
             (NInt (Z.of_nat (List.length (values_of a reviews)))).
Proof.
  intros H. unfold mean_of. cbv zeta.
  now rewrite (sum_from_int _ (values_of_int a reviews H)).
Qed.

Lemma mean_of_perm a reviews reviews' :
  Permutation reviews reviews' -> Forall int_scored reviews ->
  mean_of a reviews = mean_of a reviews'.
Proof.
  intros Hp Hint.
  assert (Hint' : Forall int_scored reviews')
    by (eapply Permutation_Forall; eauto).
  pose proof (values_of_perm a _ _ Hp) as Hv.
  rewrite !mean_of_int by assumption.
  now rewrite (int_sum_perm _ _ Hv), (Permutation_length Hv).
Qed.

Lemma mean_of_int_raise a reviews e :
  Forall int_scored reviews -> values_of a reviews <> [] ->
  mean_of a reviews = Raise e -> e = OverflowError.
Proof.
  intros Hint Hne. rewrite mean_of_int by assumption. cbn [py_truediv].
  unfold int_truediv.
  destruct (Z.eqb_spec (Z.of_nat (List.length (values_of a reviews))) 0) as [E | _].
  - destruct (values_of a reviews); [ congruence | discriminate ].
  - destruct (_ <=? _); cbn [rbind]; [ now intros [= <-] | discriminate ].
Qed.

Lemma attribute_averages_perm_ok reviews reviews' x :
  Permutation reviews reviews' -> Forall int_scored reviews ->
  attribute_averages_of reviews = Ok x ->
  exists y, attribute_averages_of reviews' = Ok y
            /\ forall a, dict_get a x = dict_get a y.
Proof.
  intros Hp Hint Hx.
  assert (Hint' : Forall int_scored reviews') by (eapply Permutation_Forall; eauto).
  assert (Hwf : Forall attributes_wf reviews).
  { eapply Forall_impl; [ | exact Hint ].
    intros r Hr. now apply attributes_typed_wf, int_scored_typed. }
  assert (Hty' : Forall attributes_typed reviews')
    by (eapply Forall_impl; [ | exact Hint' ]; apply int_scored_typed).
  assert (Hwf' : Forall attributes_wf reviews')
    by (eapply Forall_impl; [ | exact Hty' ]; apply attributes_typed_wf).
  assert (Hnil : forall a, values_of a reviews = [] <-> values_of a reviews' = []).
  { intros a. pose proof (values_of_perm a _ _ Hp) as Hv. split; intros E; rewrite E in Hv.
    - now apply Permutation_nil.
    - now apply Permutation_nil, Permutation_sym. }
  destruct (attribute_averages_total reviews' Hty') as [y Hy].
  { intros a Hne. pose proof (attribute_averages_get _ _ Hwf Hx a) as H.
    destruct (values_of a reviews) as [| v vs] eqn:E.
    - exfalso. apply Hne. now apply Hnil.
    - destruct H as (m & Hm & _). exists m. now rewrite <- (mean_of_perm a _ _ Hp Hint). }
  exists y. split; [ exact Hy | ]. intros a.
  pose proof (attribute_averages_get _ _ Hwf Hx a) as H.
  pose proof (attribute_averages_get _ _ Hwf' Hy a) as H'.
  pose proof (Hnil a) as Ha. rewrite (mean_of_perm a _ _ Hp Hint) in H.
  destruct (values_of a reviews) as [| v vs], (values_of a reviews') as [| v' vs'].
  - congruence.
  - destruct Ha as [Ha _]. discriminate (Ha eq_refl).
  - destruct Ha as [_ Ha]. discriminate (Ha eq_refl).
  - destruct H as (m & Hm & ->), H' as (m' & Hm' & ->). congruence.
Qed.

Lemma attribute_averages_int_raise reviews e :
  Forall int_scored reviews ->
  attribute_averages_of reviews = Raise e -> e = OverflowError.
Proof.
  intros Hint. unfold attribute_averages_of.
  assert (Hty : Forall attributes_typed reviews)
    by (eapply Forall_impl; [ | exact Hint ]; apply int_scored_typed).
  assert (Hwf : Forall attributes_wf reviews)
    by (eapply Forall_impl; [ | exact Hty ]; apply attributes_typed_wf).
  destruct (collect_attributes_total reviews [] Hty) as [attributes Hc].
  { intros a. rewrite tally_fold_sum. cbn [dict_get].
    destruct (values_of a reviews) as [| v vs] eqn:E; [ eauto | ].
    cbv zeta. rewrite <- E, (sum_from_int _ (values_of_int a reviews Hint)).
    cbn [rbind]. eauto. }
  rewrite Hc. cbn [rbind]. intros Hr.
  apply average_attributes_raise in Hr as (k & data & Hin & Hraise).
  assert (Hnd : NoDup (keys attributes))
    by (eapply collect_attributes_keys; [ | exact Hc ]; constructor).
  pose proof (collect_attributes_get _ _ _ Hwf Hc k) as Hget.
  rewrite (dict_get_in k data attributes Hnd Hin), tally_fold_sum in Hget.
  cbn [dict_get] in Hget.
  apply (mean_of_int_raise k reviews e Hint).
  - destruct (values_of k reviews); [ discriminate | congruence ].
  - unfold mean_of. cbv zeta. destruct (values_of k reviews) as [| v vs]; [ discriminate | ].
    cbv zeta in Hget. destruct (sum_from (NInt 0) (v :: vs)) as [s |]; [ | discriminate ].
    cbn [rbind] in Hget |- *. injection Hget as <-. exact Hraise.
Qed.

Lemma summarize_perm product_id now reviews reviews' :
  Permutation reviews reviews' -> Forall int_scored reviews ->
  same_outcome (summarize product_id now reviews) (summarize product_id now reviews').
Proof.
  intros Hp Hint.
  assert (Hint' : Forall int_scored reviews') by (eapply Permutation_Forall; eauto).
  destruct reviews as [| r0 rest] eqn:E.
  - apply Permutation_nil in Hp. subst reviews'. cbn. repeat split.
  - rewrite <- E in *.
    assert (Hne : reviews <> []) by (rewrite E; discriminate).
    assert (Hne' : reviews' <> []).
    { intros ->. apply Permutation_sym, Permutation_nil in Hp. congruence. }
    rewrite !summarize_nonempty by assumption.
    rewrite <- (forallb_perm rating_in_range _ _ Hp).
    rewrite <- (weighted_total_perm _ _ Hp), <- (Permutation_length Hp).
    destruct (forallb rating_in_range reviews); [ | reflexivity ].
    destruct (py_truediv _ _) as [average |]; [ | reflexivity ]. cbn [rbind].
    destruct (attribute_averages_of reviews) as [x |] eqn:Hx.
    + destruct (attribute_averages_perm_ok _ _ _ Hp Hint Hx) as (y & -> & Hxy).
      cbn. unfold summary_from.
      rewrite <- !(count_of_perm _ _ _ Hp), <- (Permutation_length Hp).
      repeat split. exact Hxy.
    + destruct (attribute_averages_of reviews') as [y |] eqn:Hy; cbn.
      * destruct (attribute_averages_perm_ok _ _ _ (Permutation_sym Hp) Hint' Hy)
          as (x & Hx' & _). congruence.
      * rewrite (attribute_averages_int_raise _ _ Hint Hx).
        now rewrite (attribute_averages_int_raise _ _ Hint' Hy).
Qed.

Lemma put_summary_idem sm l : put_summary sm (put_summary sm l) = put_summary sm l.
Proof.
  induction l as [| x l IH]; cbn.
  - now rewrite String.eqb_refl.
  - destruct (String.eqb_spec (ReviewSummary.product_id x) (ReviewSummary.product_id sm))
      as [E | E]; cbn.
    + now rewrite String.eqb_refl.
    + apply String.eqb_neq in E. now rewrite E, IH.
Qed.

(** C6, as the code has it.  For one reading of the clock, the summary that
    [update_product_summary] leaves is a function of the approved reviews it
    reads (the summary row of before is not consulted), and running it a
    second time changes nothing.  When every attribute score is an integer,
    reordering the reviews gives the same outcome: the same exception, or the
    same [average_rating], [total_reviews], [distribution] and [last_updated]
    and the same average under every attribute key. *)
Theorem update_product_summary_deterministic (product_id : string) (now : datetime) :
  (forall s s1,
     update_product_summary product_id now s = (Ok tt, s1) ->
     update_product_summary product_id now s1 = (Ok tt, s1))
  /\ (forall s t s1 t1,
        approved_reviews product_id (work s) = approved_reviews product_id (work t) ->
        update_product_summary product_id now s = (Ok tt, s1) ->
        update_product_summary product_id now t = (Ok tt, t1) ->
        get_summary product_id (work s1) = get_summary product_id (work t1))
  /\ (forall reviews reviews',
        Permutation reviews reviews' ->
        Forall int_scored reviews ->
        same_outcome (summarize product_id now reviews)
                     (summarize product_id now reviews')).
Proof.
  split; [ | split ].
  - intros s s1. rewrite !update_product_summary_unfold.
    destruct (summarize product_id now (approved_reviews product_id (work s)))
      as [sm |] eqn:Hsm; [ | discriminate ].
    intros [= <-]. cbn [work store inserted faults reviews responses summaries].
    unfold approved_reviews in *. cbn [reviews]. rewrite Hsm.
    now rewrite put_summary_idem.
  - intros s t s1 t1 Hsame. rewrite !update_product_summary_unfold, <- Hsame.
    destruct (summarize product_id now (approved_reviews product_id (work s)))
      as [sm |] eqn:Hsm; [ | discriminate ].
    intros [= <-] [= <-]. apply summarize_ok in Hsm as [Hid _].
    unfold get_summary. cbn [work summaries]. rewrite <- Hid.
    now rewrite !get_put_summary.
  - intros reviews reviews'. apply summarize_perm.
Qed.

Lemma update_product_summary_deterministic_witness :
  update_product_summary "P" 100
    (snd (update_product_summary "P" 100 (open_session [] sample_db)))
  = (Ok tt, snd (update_product_summary "P" 100 (open_session [] sample_db)))
  /\ get_summary "P"
       (work (snd (update_product_summary "P" 100 (open_session [] sample_db))))
     = get_summary "P"
         (work (snd (update_product_summary "P" 100
                       (snd (update_product_summary "P" 7 (open_session [] sample_db))))))
  /\ same_outcome (summarize "P" 100 (reviews sample_db))
                  (summarize "P" 100 (rev (reviews sample_db))).
Proof.
  destruct (update_product_summary_deterministic "P" 100) as (Hagain & Hfun & Hperm).
  split; [ | split ].
  - exact (Hagain (open_session [] sample_db) _ eq_refl).
  - exact (Hfun (open_session [] sample_db)
                (snd (update_product_summary "P" 7 (open_session [] sample_db)))
                _ _ eq_refl eq_refl eq_refl).
  - apply Hperm.
    + apply Permutation_rev.
    + repeat constructor; cbn; try tauto. exists 4. reflexivity.
Defined.

(** With floating-point scores the order of the reviews shows in the result:
    the durability scores 3.0, 3.1 and 3.8 average to 3.2999999999999994 in
    one order and to 3.3000000000000003 in the reverse order. *)
Lemma summarize_depends_on_order :
  Permutation float_scored (rev float_scored)
  /\ float_average "durability" (summarize "P" 100 float_scored)
     = 3.2999999999999994%float
  /\ float_average "durability" (summarize "P" 100 (rev float_scored))
     = 3.3000000000000003%float
  /\ ~ same_outcome (summarize "P" 100 float_scored)
                    (summarize "P" 100 (rev float_scored)).
Proof.
  split; [ apply Permutation_rev | ].
  split; [ reflexivity | ]. split; [ reflexivity | ].
  intros H.
  assert (Hf : float_average "durability" (summarize "P" 100 float_scored)
               = float_average "durability" (summarize "P" 100 (rev float_scored))).
  { destruct (summarize "P" 100 float_scored) as [x |],
             (summarize "P" 100 (rev float_scored)) as [y |]; cbn in H; try easy.
    destruct H as (_ & _ & _ & _ & Hget & _). cbn. now rewrite (Hget "durability"). }
  apply (f_equal (fun f => PrimFloat.ltb f 3.3%float)) in Hf.
  vm_compute in Hf. discriminate Hf.
Qed.

(** ** The moderation handlers *)

Lemma approve_review_run review_id now fs db :
  run_request (approve_review review_id now) fs db =
  match get_review review_id db with
  | None => (mkResponse 404 (error "Not Found"), db)
  | Some review =>
      if (Review.status review =? "pending")%string then
        let db1 := with_review_status review_id "approved" db in
        match fs with
        | true :: _ => (server_error OperationalError, db)
        | _ =>
            match summarize (Review.product_id review) now
                            (approved_reviews (Review.product_id review) db1) with
            | Raise e => (server_error e, db1)
            | Ok sm =>
                match tl fs with
                | true :: _ => (server_error OperationalError, db1)
                | _ =>
                    (mkResponse 200 (message "Avaliação aprovada com sucesso"),
                     mkDB (reviews db1) (responses db1) (put_summary sm (summaries db1)))
                end
            end
        end
      else (only_pending_approve, db)
  end.
Proof.
  unfold run_request, approve_review, bind, get_or_404, open_session. cbn [work].
  destruct (get_review review_id db) as [review |]; [ | reflexivity ].
  destruct (Review.status review =? "pending")%string; [ | reflexivity ].
  cbn [negb]. unfold set_review, modify, try_except, bind, commit.
  cbn [faults inserted store work pk_conflict has_duplicate existsb orb].
  destruct fs as [| [|] fs]; try reflexivity.
  - rewrite update_product_summary_unfold. cbn [work tl].
    fold (with_review_status review_id "approved" db).
    destruct (summarize _ _ _); reflexivity.
  - rewrite update_product_summary_unfold. cbn [work tl faults].
    fold (with_review_status review_id "approved" db).
    destruct (summarize _ _ _); [ | reflexivity ].
    cbn [faults inserted store work pk_conflict has_duplicate existsb orb].
    destruct fs as [| [|] fs]; reflexivity.
Qed.

Lemma reject_review_run review_id fs db :
  run_request (reject_review review_id) fs db =
  match get_review review_id db with
  | None => (mkResponse 404 (error "Not Found"), db)
  | Some review =>
      if (Review.status review =? "pending")%string then
        match fs with
        | true :: _ => (server_error OperationalError, db)
        | _ => (mkResponse 200 (message "Avaliação rejeitada com sucesso"),
                with_review_status review_id "rejected" db)
        end
      else (only_pending_reject, db)
  end.
Proof.
  unfold run_request, reject_review, bind, get_or_404, open_session. cbn [work].
  destruct (get_review review_id db) as [review |]; [ | reflexivity ].
  destruct (Review.status review =? "pending")%string; [ | reflexivity ].
  cbn [negb]. unfold set_review, modify, try_except, bind, commit.
  cbn [faults inserted store work pk_conflict has_duplicate existsb orb].
  destruct fs as [| [|] fs]; reflexivity.
Qed.

Lemma get_update_row review_id f l r :
  find (fun x => (Review.id x =? review_id)%string) l = Some r ->
  Review.id (f r) = Review.id r ->
  find (fun x => (Review.id x =? review_id)%string) (update_row review_id f l)
  = Some (f r).
Proof.
  intros Hfind Hid. induction l as [| x l IH]; cbn in *; [ discriminate | ].
  destruct (Review.id x =? review_id)%string eqn:E; cbn.
  - injection Hfind as ->. now rewrite Hid, E.
  - rewrite E. now apply IH.
Qed.

Lemma status_of_with_review_status review_id st db r :
  get_review review_id db = Some r ->
  status_of review_id (with_review_status review_id st db) = Some st.
Proof.
  intros H. unfold status_of, get_review, with_review_status. cbn [reviews].
  now rewrite (get_update_row review_id (Review.with_status st) _ r H eq_refl).
Qed.

(** The second commit of an approval fails: the request is answered 500, the
    review is nevertheless approved for every later reader, and the product
    has no summary. *)
Lemma approve_review_not_atomic :
  status_of "R1" pending_db = Some "pending"
  /\ fst (run_request (approve_review "R1" 100) [false; true] pending_db)
     = server_error OperationalError
  /\ status_of "R1" (snd (run_request (approve_review "R1" 100) [false; true] pending_db))
     = Some "approved"
  /\ get_summary "P" (snd (run_request (approve_review "R1" 100) [false; true] pending_db))
     = None.
Proof. repeat split. Qed.

(** C2, as the code has it.  The approval of a pending review commits twice.
    When the first commit fails, nothing is changed.  When it succeeds, the
    approved status is persisted from then on, whatever follows; the summary
    is replaced by the recomputed one exactly when the request is answered
    200, and is left as it was when the recomputation or the second commit
    fails (the request is then answered 500).  In particular, when the first
    commit succeeds and the second fails, the request is answered 500 with
    the review approved and the summary of before; and the request is
    answered 200 exactly when the recomputation raises nothing and both
    commits go through. *)
Theorem approve_review_two_commits (review_id : string) (now : datetime)
        (fs : list bool) (db : DB) (r : Review.t) :
  get_review review_id db = Some r ->
  Review.status r = "pending"%string ->
  let out := run_request (approve_review review_id now) fs db in
  let db1 := with_review_status review_id "approved" db in
  (~ first_commit_ok fs -> out = (server_error OperationalError, db))
  /\ (first_commit_ok fs ->
      reviews (snd out) = reviews db1
      /\ responses (snd out) = responses db
      /\ (code (fst out) = 200 ->
          exists sm,
            summarize (Review.product_id r) now
                      (approved_reviews (Review.product_id r) db1) = Ok sm
            /\ summaries (snd out) = put_summary sm (summaries db))
      /\ (code (fst out) <> 200 ->
          code (fst out) = 500 /\ summaries (snd out) = summaries db)
      /\ (~ second_commit_ok fs ->
          code (fst out) = 500
          /\ summaries (snd out) = summaries db
          /\ status_of review_id (snd out) = Some "approved"%string)
      /\ (forall e,
            summarize (Review.product_id r) now
                      (approved_reviews (Review.product_id r) db1) = Raise e ->
            out = (server_error e, db1))
      /\ (second_commit_ok fs ->
          (exists sm,
             summarize (Review.product_id r) now
                       (approved_reviews (Review.product_id r) db1) = Ok sm) ->
          code (fst out) = 200)).
Proof.
  intros Hget Hst out db1. subst out. rewrite approve_review_run, Hget, Hst.
  pose proof (status_of_with_review_status review_id "approved" db r Hget) as Ha.
  cbn [String.eqb Ascii.eqb Bool.eqb]. fold db1. fold db1 in Ha. cbv zeta.
  unfold first_commit_ok, second_commit_ok.
  destruct fs as [| [|] fs]; cbn [hd tl].
  - split; [ congruence | intros _ ].
    destruct (summarize _ _ _) as [sm |]; cbn [fst snd code server_error];
      repeat split; eauto; try congruence; try discriminate;
      try (intros _ [sm' [=]]).
  - split; [ reflexivity | discriminate ].
  - split; [ congruence | intros _ ].
    destruct (summarize _ _ _) as [sm |];
      [ | cbn [fst snd code server_error]; repeat split; try congruence;
          try (intros _ [sm' [=]]) ].
    destruct fs as [| [|] fs]; cbn [hd fst snd code server_error];
      repeat split; eauto; try congruence; try discriminate.
Qed.

Lemma approve_review_two_commits_witness :
  (reviews (snd (run_request (approve_review "R1" 100) [] pending_db))
   = reviews (with_review_status "R1" "approved" pending_db)
   /\ (code (fst (run_request (approve_review "R1" 100) [] pending_db)) = 200 ->
       exists sm,
         summarize "P" 100 (approved_reviews "P" (with_review_status "R1" "approved" pending_db))
         = Ok sm
         /\ summaries (snd (run_request (approve_review "R1" 100) [] pending_db))
            = put_summary sm (summaries pending_db)))
  /\ (code (fst (run_request (approve_review "R1" 100) [false; true] pending_db)) = 500
      /\ summaries (snd (run_request (approve_review "R1" 100) [false; true] pending_db))
         = summaries pending_db
      /\ status_of "R1" (snd (run_request (approve_review "R1" 100) [false; true] pending_db))
         = Some "approved"%string).
Proof.
  destruct (approve_review_two_commits "R1" 100 [] pending_db
              (sample_review "R1" 5 "pending" (JObj [("durability", JInt 4)]))
              eq_refl eq_refl) as [_ H].
  destruct (H eq_refl) as (H1 & _ & H3 & _).
  destruct (approve_review_two_commits "R1" 100 [false; true] pending_db
              (sample_review "R1" 5 "pending" (JObj [("durability", JInt 4)]))
              eq_refl eq_refl) as [_ H'].
  destruct (H' eq_refl) as (_ & _ & _ & _ & H5 & _).
  refine (conj (conj H1 H3) (H5 _)). discriminate.
Defined.

(** A pending review whose attributes the recomputation cannot add up: the
    approval is answered 500 although the review was pending. *)
Lemma approve_review_pending_fails :
  status_of "R1" worded_db = Some "pending"
  /\ fst (run_request (approve_review "R1" 100) [] worded_db) = server_error TypeError
  /\ status_of "R1" (snd (run_request (approve_review "R1" 100) [] worded_db))
     = Some "approved".
Proof. repeat split. Qed.

(** C4, as the code has it.  On a review that is not pending, approve and
    reject answer 400 and change nothing.  A request answered 200 was made on
    a pending review and has persisted the new status.  On a pending review,
    reject is answered 200 when its commit goes through, and approve is
    answered 200 when both commits go through and the recomputation of the
    summary raises no exception. *)
Theorem moderation_transitions (review_id : string) (now : datetime)
        (fs : list bool) (db : DB) (r : Review.t) :
  get_review review_id db = Some r ->
  let approved := run_request (approve_review review_id now) fs db in
  let rejected := run_request (reject_review review_id) fs db in
  (Review.status r <> "pending"%string ->
   approved = (only_pending_approve, db) /\ rejected = (only_pending_reject, db))
  /\ (code (fst approved) = 200 ->
      Review.status r = "pending"%string
      /\ status_of review_id (snd approved) = Some "approved"%string)
  /\ (code (fst rejected) = 200 ->
      Review.status r = "pending"%string
      /\ status_of review_id (snd rejected) = Some "rejected"%string)
  /\ (Review.status r = "pending"%string ->
      first_commit_ok fs ->
      code (fst rejected) = 200)
  /\ (Review.status r = "pending"%string ->
      first_commit_ok fs -> second_commit_ok fs ->
      (exists sm,
         summarize (Review.product_id r) now
           (approved_reviews (Review.product_id r)
              (with_review_status review_id "approved" db)) = Ok sm) ->
      code (fst approved) = 200).
Proof.
  intros Hget approved rejected. subst approved rejected.
  rewrite approve_review_run, reject_review_run, Hget.
  pose proof (status_of_with_review_status review_id "approved" db r Hget) as Ha.
  pose proof (status_of_with_review_status review_id "rejected" db r Hget) as Hr.
  unfold first_commit_ok, second_commit_ok.
  destruct (String.eqb_spec (Review.status r) "pending") as [Hst | Hst].
  - split; [ congruence | ]. cbv zeta.
    destruct (summarize _ _ _) as [sm |]; destruct fs as [| [|] [| [|] fs]];
      cbn [fst snd code server_error hd tl];
      repeat split; try discriminate; try assumption; try reflexivity;
      try (intros; discriminate); try (intros _ _ _ [sm' [=]]).
  - split; [ now split | ].
    cbn [fst snd code only_pending_approve only_pending_reject].
    repeat split; try discriminate; try (intros; congruence).
Qed.

Lemma moderation_transitions_witness :
  code (fst (run_request (approve_review "R1" 100) [] pending_db)) = 200
  /\ status_of "R1" (snd (run_request (approve_review "R1" 100) [] pending_db))
     = Some "approved"%string
  /\ code (fst (run_request (reject_review "R1") [] pending_db)) = 200
  /\ run_request (approve_review "R1" 100) [] sample_db = (only_pending_approve, sample_db).
Proof.
  destruct (moderation_transitions "R1" 100 [] pending_db
              (sample_review "R1" 5 "pending" (JObj [("durability", JInt 4)])) eq_refl)
    as (_ & Hok & _ & Hrej & Happ).
  destruct (moderation_transitions "R1" 100 [] sample_db
              (sample_review "R1" 5 "approved" (JObj [("durability", JInt 4)])) eq_refl)
    as (Hno & _).
  assert (H200 : code (fst (run_request (approve_review "R1" 100) [] pending_db)) = 200).
  { apply Happ; try reflexivity. eexists. reflexivity. }
  refine (conj H200 (conj (proj2 (Hok H200)) (conj (Hrej eq_refl eq_refl) _))).
  apply Hno. discriminate.
Defined.

(** C7. A rejection answered 200 was made on a pending review and has set
    its status to rejected; a pending review is so rejected whenever the
    commit goes through; whatever the outcome of [reject_review], the
    summaries are the ones of before; and with other summaries in the
    database the answer and the reviews left are the same (the summaries are
    not read). *)
Theorem reject_review_keeps_summary (review_id : string) (fs : list bool)
        (db : DB) (r : Review.t) :
  get_review review_id db = Some r ->
  Review.status r = "pending"%string ->
  let out := run_request (reject_review review_id) fs db in
  summaries (snd out) = summaries db
  /\ (first_commit_ok fs ->
      code (fst out) = 200
      /\ status_of review_id (snd out) = Some "rejected"%string)
  /\ (code (fst out) = 200 ->
      status_of review_id (snd out) = Some "rejected"%string)
  /\ (forall others,
        run_request (reject_review review_id) fs
                    (mkDB (reviews db) (responses db) others)
        = (fst out, mkDB (reviews (snd out)) (responses (snd out)) others)).
Proof.
  intros Hget Hst out. subst out. rewrite reject_review_run, Hget, Hst.
  cbn [String.eqb Ascii.eqb Bool.eqb].
  pose proof (status_of_with_review_status review_id "rejected" db r Hget) as Hr.
  assert (Hothers : forall others,
            get_review review_id (mkDB (reviews db) (responses db) others) = Some r)
    by (intros others; exact Hget).
  unfold first_commit_ok.
  destruct fs as [| [|] fs]; cbn [fst snd code hd server_error];
    repeat split; try assumption; try reflexivity; try discriminate;
    try (intros _; exact Hr);
    intros others; rewrite reject_review_run, (Hothers others), Hst; reflexivity.
Qed.

Lemma reject_review_keeps_summary_witness :
  summaries (snd (run_request (reject_review "R1") [] pending_db)) = summaries pending_db
  /\ code (fst (run_request (reject_review "R1") [] pending_db)) = 200
  /\ status_of "R1" (snd (run_request (reject_review "R1") [] pending_db))
     = Some "rejected"%string.
Proof.
  destruct (reject_review_keeps_summary "R1" [] pending_db
              (sample_review "R1" 5 "pending" (JObj [("durability", JInt 4)]))
              eq_refl eq_refl) as (H1 & H2 & _).
  exact (conj H1 (H2 eq_refl)).
Defined.

(** ** Helpfulness *)

Lemma get_review_id review_id db r :
  get_review review_id db = Some r -> Review.id r = review_id.
Proof.
  intros H. apply find_some in H. now apply String.eqb_eq.
Qed.

Lemma update_review_helpfulness_run review_id data fs db :
  run_request (update_review_helpfulness review_id data) fs db =
  match get_review review_id db with
  | None => (mkResponse 404 (error "Not Found"), db)
  | Some review =>
      match fs with
      | true :: _ => (server_error OperationalError, db)
      | _ =>
          (mkResponse 200 [("helpfulness", JObj (Review.helpfulness review));
                           ("message", JStr "Utilidade atualizada com sucesso")],
           db)
      end
  end.
Proof.
  unfold run_request, update_review_helpfulness, bind, get_or_404, open_session.
  cbn [work]. destruct (get_review review_id db) as [review |] eqn:Hget; [ | reflexivity ].
  unfold set_item, ret, try_except, bind, commit, refresh.
  cbn [faults inserted store work pk_conflict has_duplicate existsb orb
       Review.id Review.with_helpfulness].
  rewrite (get_review_id review_id db review Hget).
  destruct fs as [| [|] fs]; cbn [work faults tl]; try reflexivity;
    now rewrite Hget.
Qed.

(** C8.  The handler assigns the supplied values inside the dict held by the
    loaded review, a change of which the session is not told (the column is a
    plain JSON one): whatever the body holds, the database is left exactly as
    it was.  When the commit goes through the request is answered 200 with
    the counters that were stored before, not the supplied ones; no value is
    rejected, the only other answer being the 500 of a failed commit. *)
Theorem update_review_helpfulness_stores_nothing (review_id : string)
        (data : HelpfulnessData) (fs : list bool) (db : DB) (r : Review.t) :
  get_review review_id db = Some r ->
  let out := run_request (update_review_helpfulness review_id data) fs db in
  snd out = db
  /\ (first_commit_ok fs ->
      fst out = mkResponse 200 [("helpfulness", JObj (Review.helpfulness r));
                                ("message", JStr "Utilidade atualizada com sucesso")])
  /\ (~ first_commit_ok fs -> fst out = server_error OperationalError).
Proof.
  intros Hget out. subst out. rewrite update_review_helpfulness_run, Hget.
  unfold first_commit_ok.
  destruct fs as [| [|] fs]; cbn [hd fst snd]; repeat split;
    try reflexivity; try discriminate; intros H; now destruct H.
Qed.

(** Seven likes are sent for a review that has none: the request is answered
    200 with no likes, and the review still has none. *)
Lemma update_review_helpfulness_stores_nothing_witness :
  run_request (update_review_helpfulness "R1" (mkHelpfulnessData (Some (JInt 7)) None))
              [] pending_db
  = (mkResponse 200 [("helpfulness", JObj [("likes", JInt 0); ("dislikes", JInt 0)]);
                     ("message", JStr "Utilidade atualizada com sucesso")],
     pending_db).
Proof.
  destruct (update_review_helpfulness_stores_nothing "R1"
              (mkHelpfulnessData (Some (JInt 7)) None) [] pending_db
              (sample_review "R1" 5 "pending" (JObj [("durability", JInt 4)]))
              eq_refl) as (H1 & H2 & _).
  exact (eq_trans (surjective_pairing _) (f_equal2 pair (H2 eq_refl) H1)).
Defined.

(** ** The responses of a review *)

Lemma filter_subsequence {A : Type} (f : A -> bool) (l : list A) :
  subsequence (filter f l) l.
Proof.
  induction l as [| x l IH]; cbn.
  - constructor.
  - destruct (f x); now constructor.
Qed.

Lemma filter_filter {A : Type} (f g : A -> bool) (l : list A) :
  filter f (filter g l) = filter (fun x => g x && f x) l.
Proof.
  induction l as [| x l IH]; cbn; [ reflexivity | ].
  destruct (g x); cbn; [ | exact IH ].
  destruct (f x); now rewrite IH.
Qed.

(** The two active responses of ["R1"] come out dated 20 and then 10. *)
Lemma active_responses_not_by_date :
  map ReviewResponse.response_date (active_responses "R1" late_first_db) = [20; 10]
  /\ ~ Sorted Z.le
       (map ReviewResponse.response_date (active_responses "R1" late_first_db)).
Proof.
  split; [ reflexivity | ].
  intros H. cbn in H. inversion H as [| ? ? _ Hrel]; subst.
  inversion Hrel as [| ? ? Hle]; subst. lia.
Qed.

(** C9, as the code has it.  The responses listed with a review are exactly
    the rows of the table that belong to the review and whose status is
    active, each one entered once per row, in the order in which the table
    yields them; no ordering by [response_date] is applied. *)
Theorem active_responses_listing (review_id : string) (db : DB) :
  (forall x, In x (active_responses review_id db) <->
             In x (responses db)
             /\ ReviewResponse.review_id x = review_id
             /\ ReviewResponse.status x = "active"%string)
  /\ subsequence (active_responses review_id db) (responses db)
  /\ listed_responses review_id db
     = map response_entry (active_responses review_id db).
Proof.
  unfold listed_responses, active_responses, review_responses.
  split; [ | split; [ | reflexivity ] ].
  - intros x. rewrite !filter_In, !String.eqb_eq. tauto.
  - rewrite filter_filter. apply filter_subsequence.
Qed.

(** ** Creation *)

Lemma find_existsb {A : Type} (f : A -> bool) (l : list A) :
  existsb f l = match find f l with Some _ => true | None => false end.
Proof.
  induction l as [| x l IH]; cbn; [ reflexivity | ].
  destruct (f x); [ reflexivity | exact IH ].
Qed.

(** C10. A create request that passes validation (the five required fields
    are present and the rating is in 1..5) is answered 201 or 500.  Answered
    201, it has added one review, whose status is pending and whose
    helpfulness is [{likes: 0, dislikes: 0}], whatever the body holds under
    [status], [helpfulness] or any other key; answered 500, it has added
    nothing.  It is answered 201 when the commit goes through and the id is
    new. *)
Theorem create_review_pending (data : ReviewData) (now : datetime)
        (fs : list bool) (db : DB)
        (id product_id user_id title : string) (rating : Z) :
  d_id data = Some id ->
  d_product_id data = Some product_id ->
  d_user_id data = Some user_id ->
  d_title data = Some title ->
  d_rating data = Some rating ->
  1 <= rating <= 5 ->
  let out := run_request (create_review data now) fs db in
  (code (fst out) = 201 \/ code (fst out) = 500)
  /\ (code (fst out) = 201 ->
      exists review,
        snd out = mkDB (reviews db ++ [review]) (responses db) (summaries db)
        /\ Review.id review = id
        /\ Review.status review = "pending"%string
        /\ Review.helpfulness review = [("likes", JInt 0); ("dislikes", JInt 0)])
  /\ (code (fst out) = 500 -> snd out = db)
  /\ (first_commit_ok fs -> get_review id db = None -> code (fst out) = 201).
Proof.
  intros Hid Hpid Huid Htitle Hrating Hrange out. subst out.
  unfold run_request, create_review, open_session.
  rewrite Hid, Hpid, Huid, Htitle, Hrating.
  replace ((1 <=? rating) && (rating <=? 5)) with true
    by (symmetry; apply andb_true_iff; lia).
  cbn [negb]. unfold bind, session_add, try_except, commit, rollback, ret.
  cbn [faults inserted store work app pk_conflict has_duplicate existsb orb Review.id].
  rewrite orb_false_r, find_existsb. fold (get_review id db).
  unfold first_commit_ok.
  destruct fs as [| [|] fs]; cbn [hd tl fst snd code server_error store];
    destruct (get_review id db) as [old |];
    cbn [fst snd code server_error store];
    repeat split; auto; try discriminate; try (intros; discriminate);
    try (intros _; eexists; repeat split; reflexivity).
Qed.

Lemma create_review_pending_witness :
  code (fst (run_request
               (create_review
                  (mkReviewData (Some "R9") (Some "P") (Some "user") (Some "title")
                                (Some 4) None None None None
                                (Some (JStr "approved"))
                                (Some (JObj [("likes", JInt 99)])))
                  100)
               [] pending_db)) = 201
  /\ exists review,
       snd (run_request
              (create_review
                 (mkReviewData (Some "R9") (Some "P") (Some "user") (Some "title")
                               (Some 4) None None None None
                               (Some (JStr "approved"))
                               (Some (JObj [("likes", JInt 99)])))
                 100)
              [] pending_db)
       = mkDB (reviews pending_db ++ [review]) (responses pending_db)
              (summaries pending_db)
       /\ Review.id review = "R9"%string
       /\ Review.status review = "pending"%string
       /\ Review.helpfulness review = [("likes", JInt 0); ("dislikes", JInt 0)].
Proof.
  destruct (create_review_pending
              (mkReviewData (Some "R9") (Some "P") (Some "user") (Some "title")
                            (Some 4) None None None None
                            (Some (JStr "approved"))
                            (Some (JObj [("likes", JInt 99)])))
              100 [] pending_db "R9" "P" "user" "title" 4
              eq_refl eq_refl eq_refl eq_refl eq_refl ltac:(lia))
    as (_ & Hcreated & _ & Hok).
  exact (conj (Hok eq_refl eq_refl) (Hcreated (Hok eq_refl eq_refl))).
Defined.

(** * Further properties: the other routes, and the routes together *)

(** ** Outcomes of the handlers *)

Lemma create_review_run data now fs db :
  run_request (create_review data now) fs db =
  match d_id data, d_product_id data, d_user_id data, d_title data, d_rating data with
  | None, _, _, _, _ => (missing_field "id", db)
  | _, None, _, _, _ => (missing_field "product_id", db)
  | _, _, None, _, _ => (missing_field "user_id", db)
  | _, _, _, None, _ => (missing_field "title", db)
  | _, _, _, _, None => (missing_field "rating", db)
  | Some id, Some product_id, Some user_id, Some title, Some rating =>
      if (1 <=? rating) && (rating <=? 5) then
        match fs with
        | true :: _ => (server_error OperationalError, db)
        | _ =>
            match get_review id db with
            | Some _ => (server_error IntegrityError, db)
            | None =>
                (mkResponse 201 [("id", JStr id);
                                 ("message", JStr "Avaliação criada com sucesso");
                                 ("status", JStr "pending")],
                 mkDB (reviews db ++
                       [Review.mk id product_id user_id title (d_comment data) rating now
                          (or_null (d_photos data)) default_helpfulness "pending"
                          (match d_verified_purchase data with
                           | Some b => b
                           | None => false
                           end)
                          (or_null (d_attributes data))])
                      (responses db) (summaries db))
            end
        end
      else (rating_out_of_range, db)
  end.
Proof.
  unfold run_request, create_review, open_session.
  destruct (d_id data) as [id |], (d_product_id data) as [product_id |],
           (d_user_id data) as [user_id |], (d_title data) as [title |],
           (d_rating data) as [rating |]; try reflexivity.
  destruct ((1 <=? rating) && (rating <=? 5)); [ | reflexivity ].
  cbn [negb]. unfold bind, session_add, try_except, commit, rollback, ret.
  cbn [faults inserted store work app pk_conflict has_duplicate existsb orb Review.id].
  rewrite orb_false_r, find_existsb. fold (get_review id db).
  destruct fs as [| [|] fs]; cbn [tl]; destruct (get_review id db); reflexivity.
Qed.

Lemma create_review_response_run review_id data now fs db :
  run_request (create_review_response review_id data now) fs db =
  match get_review review_id db with
  | None => (mkResponse 404 (error "Not Found"), db)
  | Some _ =>
      match rd_id data, rd_user_id data, rd_comment data with
      | None, _, _ => (missing_field "id", db)
      | _, None, _ => (missing_field "user_id", db)
      | _, _, None => (missing_field "comment", db)
      | Some id, Some user_id, Some comment =>
          match fs with
          | true :: _ => (server_error OperationalError, db)
          | _ =>
              if response_conflict id db then (server_error IntegrityError, db)
              else
                (mkResponse 201 [("id", JStr id);
                                 ("message", JStr "Resposta adicionada com sucesso")],
                 mkDB (reviews db)
                      (responses db ++
                       [ReviewResponse.mk id review_id user_id comment now
                          (match rd_is_seller data with
                           | Some b => b
                           | None => false
                           end)
                          "active"])
                      (summaries db))
          end
      end
  end.
Proof.
  unfold run_request, create_review_response, bind, get_or_404, open_session.
  cbn [work]. destruct (get_review review_id db) as [review |]; [ | reflexivity ].
  destruct (rd_id data) as [id |], (rd_user_id data) as [user_id |],
           (rd_comment data) as [comment |]; try reflexivity.
  unfold session_add_response, modify, try_except, bind, commit_response, commit,
    rollback, ret.
  cbn [faults inserted store work pk_conflict has_duplicate existsb orb
       ReviewResponse.id].
  destruct fs as [| [|] fs]; cbn [tl]; destruct (response_conflict id db); reflexivity.
Qed.

(** ** Creating a review *)

(** X1. Of the create requests whose rating, when the body has one, is an
    integer: a request that lacks a required key is answered 400 naming the
    first required key that the body lacks, in the order id, product_id,
    user_id, title, rating; a request with the five keys and a rating outside
    1..5 is answered 400 for the rating; no other such request is answered
    400; and a request answered 400 stores nothing. *)
Theorem create_review_rejects_invalid (data : ReviewData) (now : datetime)
        (fs : list bool) (db : DB) :
  (code (fst (run_request (create_review data now) fs db)) = 400
   <-> valid_review_data data = false)
  /\ (forall field,
        first_missing data = Some field ->
        run_request (create_review data now) fs db = (missing_field field, db))
  /\ (first_missing data = None ->
      valid_review_data data = false ->
      run_request (create_review data now) fs db = (rating_out_of_range, db))
  /\ (code (fst (run_request (create_review data now) fs db)) = 400 ->
      snd (run_request (create_review data now) fs db) = db).
Proof.
  rewrite create_review_run. unfold valid_review_data, first_missing.
  destruct (d_id data) as [id |], (d_product_id data) as [product_id |],
           (d_user_id data) as [user_id |], (d_title data) as [title |],
           (d_rating data) as [rating |]; cbn;
    try (repeat split; try reflexivity; try discriminate;
         intros; try congruence; fail).
  destruct ((1 <=? rating) && (rating <=? 5)).
  - destruct fs as [| [|] fs]; destruct (get_review id db); cbn;
      repeat split; try discriminate; intros; discriminate.
  - cbn. repeat split; try reflexivity; discriminate.
Qed.

(** X2. A valid create request whose id is already the key of a review is
    answered 500 and stores nothing: the first review keeps the key. *)
Theorem create_review_existing_id (data : ReviewData) (now : datetime)
        (fs : list bool) (db : DB) (id : string) (old : Review.t) :
  valid_review_data data = true ->
  d_id data = Some id ->
  get_review id db = Some old ->
  code (fst (run_request (create_review data now) fs db)) = 500
  /\ snd (run_request (create_review data now) fs db) = db.
Proof.
  intros Hvalid Hid Hold. rewrite create_review_run.
  unfold valid_review_data, first_missing in Hvalid. rewrite Hid in *.
  destruct (d_product_id data) as [product_id |], (d_user_id data) as [user_id |],
           (d_title data) as [title |], (d_rating data) as [rating |];
    cbn in Hvalid; try discriminate.
  rewrite Hvalid, Hold. destruct fs as [| [|] fs]; split; reflexivity.
Qed.

Lemma create_review_existing_id_witness :
  code (fst (run_request
               (create_review
                  (mkReviewData (Some "R1") (Some "Q") (Some "other") (Some "again")
                                (Some 2) None None None None None None)
                  100)
               [] pending_db)) = 500
  /\ snd (run_request
            (create_review
               (mkReviewData (Some "R1") (Some "Q") (Some "other") (Some "again")
                             (Some 2) None None None None None None)
               100)
            [] pending_db) = pending_db.
Proof.
  exact (create_review_existing_id
           (mkReviewData (Some "R1") (Some "Q") (Some "other") (Some "again")
                         (Some 2) None None None None None None)
           100 [] pending_db "R1"
           (sample_review "R1" 5 "pending" (JObj [("durability", JInt 4)]))
           eq_refl eq_refl eq_refl).
Defined.

Lemma find_app_fresh {A : Type} (f : A -> bool) (l : list A) (x : A) :
  find f (l ++ [x]) = match find f l with
                      | Some y => Some y
                      | None => if f x then Some x else None
                      end.
Proof.
  induction l as [| y l IH]; cbn; [ reflexivity | ].
  destruct (f y); [ reflexivity | exact IH ].
Qed.

(** X3. A create request answered 201 had a new id, and the review it has
    stored is the one a lookup of that id now returns: it carries the fields
    of the body and the reading of the clock, it is pending, and it is the
    last entry of the moderation queue.  The lookup of every other id is as
    before. *)
Theorem create_review_then_get (data : ReviewData) (now : datetime)
        (fs : list bool) (db : DB) (id : string) :
  d_id data = Some id ->
  code (fst (run_request (create_review data now) fs db)) = 201 ->
  get_review id db = None
  /\ exists r,
       get_review id (snd (run_request (create_review data now) fs db)) = Some r
       /\ Review.id r = id
       /\ d_product_id data = Some (Review.product_id r)
       /\ d_user_id data = Some (Review.user_id r)
       /\ d_title data = Some (Review.title r)
       /\ d_rating data = Some (Review.rating r)
       /\ Review.comment r = d_comment data
       /\ Review.attributes r = or_null (d_attributes data)
       /\ Review.photos r = or_null (d_photos data)
       /\ Review.review_date r = now
       /\ Review.status r = "pending"%string
       /\ pending_reviews (snd (run_request (create_review data now) fs db))
          = pending_reviews db ++ [r]
       /\ forall other,
            other <> id ->
            get_review other (snd (run_request (create_review data now) fs db))
            = get_review other db.
Proof.
  intros Hid. rewrite create_review_run, Hid.
  destruct (d_product_id data) as [product_id |], (d_user_id data) as [user_id |],
           (d_title data) as [title |], (d_rating data) as [rating |];
    try (cbn; discriminate).
  destruct ((1 <=? rating) && (rating <=? 5)); [ | cbn; discriminate ].
  assert (Hfresh :
            get_review id db = None ->
            forall r, Review.id r = id -> Review.status r = "pending"%string ->
            find (fun x => (Review.id x =? id)%string) (reviews db ++ [r]) = Some r
            /\ filter (fun x => (Review.status x =? "pending")%string) (reviews db ++ [r])
               = pending_reviews db ++ [r]
            /\ forall other, other <> id ->
                 find (fun x => (Review.id x =? other)%string) (reviews db ++ [r])
                 = get_review other db).
  { intros Hnew r Hr Hst. unfold get_review in *. rewrite find_app_fresh, Hnew, Hr.
    rewrite String.eqb_refl. split; [ reflexivity | ]. split.
    - unfold pending_reviews. rewrite filter_app. cbn. now rewrite Hst.
    - intros other Hother. rewrite find_app_fresh, Hr.
      apply String.eqb_neq in Hother. rewrite String.eqb_sym, Hother.
      destruct (find (fun x => (Review.id x =? other)%string) (reviews db));
        reflexivity. }
  destruct fs as [| [|] fs]; try (cbn; discriminate);
    (destruct (get_review id db) as [old |] eqn:Hnew; [ cbn; discriminate | ]);
    intros _; (split; [ reflexivity | ]);
    cbn [snd]; unfold get_review at 1, pending_reviews at 1; cbn [reviews];
    match goal with
    | |- context [reviews db ++ [?r]] =>
        destruct (Hfresh eq_refl r eq_refl eq_refl) as (H1 & H2 & H3);
        exists r; rewrite H1, H2
    end;
    repeat split; exact H3.
Qed.

Lemma create_review_then_get_witness :
  get_review "R9" pending_db = None
  /\ exists r,
       get_review "R9"
         (snd (run_request
                 (create_review
                    (mkReviewData (Some "R9") (Some "P") (Some "user") (Some "title")
                                  (Some 4) (Some "fine") None None None None None)
                    100)
                 [] pending_db)) = Some r
       /\ Review.comment r = Some "fine"%string
       /\ Review.status r = "pending"%string.
Proof.
  destruct (create_review_then_get
              (mkReviewData (Some "R9") (Some "P") (Some "user") (Some "title")
                            (Some 4) (Some "fine") None None None None None)
              100 [] pending_db "R9" eq_refl eq_refl)
    as (Hnew & r & Hget & _ & _ & _ & _ & _ & Hcomment & _ & _ & _ & Hstatus & _).
  exact (conj Hnew (ex_intro _ r (conj Hget (conj Hcomment Hstatus)))).
Defined.

(** ** What a request does to the table of reviews *)

Lemma serve_review_step rq fs db :
  review_step (reviews db) (reviews (snd (serve rq fs db))).
Proof.
  unfold serve. destruct rq as [data now | review_id now | review_id
                                | review_id data now | review_id data]; cbn [handler].
  - rewrite create_review_run.
    destruct (d_id data) as [id |], (d_product_id data) as [product_id |],
             (d_user_id data) as [user_id |], (d_title data) as [title |],
             (d_rating data) as [rating |]; try apply step_none.
    destruct ((1 <=? rating) && (rating <=? 5)); [ | apply step_none ].
    destruct fs as [| [|] fs]; try apply step_none;
      (destruct (get_review id db) eqn:Hnew; [ apply step_none | ]);
      cbn [snd reviews]; now apply step_create.
  - rewrite approve_review_run.
    destruct (get_review review_id db) as [r |] eqn:Hget; [ | apply step_none ].
    destruct (String.eqb_spec (Review.status r) "pending") as [Hst | _];
      [ | apply step_none ].
    cbv zeta.
    assert (Hstep : review_step (reviews db)
                      (reviews (with_review_status review_id "approved" db)))
      by (cbn [with_review_status reviews]; eapply step_moderate; eauto).
    destruct fs as [| [|] fs]; try apply step_none;
      (destruct (summarize _ _ _); [ | exact Hstep ]).
    + exact Hstep.
    + destruct fs as [| [|] fs]; exact Hstep.
  - rewrite reject_review_run.
    destruct (get_review review_id db) as [r |] eqn:Hget; [ | apply step_none ].
    destruct (String.eqb_spec (Review.status r) "pending") as [Hst | _];
      [ | apply step_none ].
    destruct fs as [| [|] fs]; try apply step_none;
      cbn [snd with_review_status reviews]; eapply step_moderate; eauto.
  - rewrite create_review_response_run.
    destruct (get_review review_id db); [ | apply step_none ].
    destruct (rd_id data) as [id |], (rd_user_id data) as [user_id |],
             (rd_comment data) as [comment |]; try apply step_none.
    destruct fs as [| [|] fs]; try apply step_none;
      destruct (response_conflict id db); apply step_none.
  - rewrite update_review_helpfulness_run.
    destruct (get_review review_id db) as [r |] eqn:Hget; [ | apply step_none ].
    destruct fs as [| [|] fs]; apply step_none.
Qed.

Lemma map_id_update_row review_id f l :
  (forall r, Review.id (f r) = Review.id r) ->
  map Review.id (update_row review_id f l) = map Review.id l.
Proof.
  intros Hf. induction l as [| x l IH]; cbn; [ reflexivity | ].
  destruct (Review.id x =? review_id)%string; cbn; [ now rewrite Hf | now rewrite IH ].
Qed.

Lemma find_none_not_in review_id l :
  find (fun x => (Review.id x =? review_id)%string) l = None ->
  ~ In review_id (map Review.id l).
Proof.
  induction l as [| x l IH]; cbn; [ tauto | ].
  destruct (String.eqb_spec (Review.id x) review_id) as [E | E]; [ discriminate | ].
  intros H [Hx | Hin]; [ congruence | now apply IH ].
Qed.

Lemma review_step_ids l l' :
  review_step l l' -> NoDup (map Review.id l) -> NoDup (map Review.id l').
Proof.
  intros Hstep Hnd. destruct Hstep as [| review_id st r _ _ _ | r Hnew _ _].
  - exact Hnd.
  - now rewrite map_id_update_row.
  - rewrite map_app. cbn. apply find_none_not_in in Hnew.
    apply (Permutation_NoDup (l := Review.id r :: map Review.id l)).
    + apply Permutation_cons_append.
    + now constructor.
Qed.

Lemma update_row_nth review_id f l r0 : forall n r,
  find (fun x => (Review.id x =? review_id)%string) l = Some r0 ->
  nth_error l n = Some r ->
  nth_error (update_row review_id f l) n = Some r
  \/ (r = r0 /\ nth_error (update_row review_id f l) n = Some (f r0)).
Proof.
  induction l as [| x l IH]; intros n r Hfind Hn; [ discriminate | ].
  cbn in Hfind |- *. destruct (Review.id x =? review_id)%string.
  - injection Hfind as ->. destruct n as [| n]; cbn in Hn |- *.
    + right. injection Hn as ->. auto.
    + now left.
  - destruct n as [| n]; cbn in Hn |- *; [ now left | now apply IH ].
Qed.

Lemma same_content_refl r : same_content r r.
Proof. repeat split. Qed.

Lemma review_step_nth l l' n r :
  review_step l l' ->
  nth_error l n = Some r ->
  exists r',
    nth_error l' n = Some r'
    /\ same_content r r'
    /\ (Review.status r' = Review.status r
        \/ (Review.status r = "pending"%string
            /\ (Review.status r' = "approved"%string
                \/ Review.status r' = "rejected"%string))).
Proof.
  intros Hstep Hn.
  destruct Hstep as [| review_id st r0 Hfind Hpending Hst | x _ _ _].
  - exists r. auto using same_content_refl.
  - destruct (update_row_nth review_id (Review.with_status st) l r0 n r Hfind Hn)
      as [H | [-> H]].
    + exists r. auto using same_content_refl.
    + exists (Review.with_status st r0). split; [ exact H | ].
      split; [ repeat split | ]. right. split; [ exact Hpending | ].
      destruct Hst as [-> | ->]; auto.
  - exists r. split; [ | auto using same_content_refl ].
    rewrite nth_error_app1; [ exact Hn | ].
    apply nth_error_Some. congruence.
Qed.

Lemma update_row_Forall (P : Review.t -> Prop) review_id f l :
  (forall r, P r -> P (f r)) -> Forall P l -> Forall P (update_row review_id f l).
Proof.
  intros Hf. induction 1 as [| x l Hx Hl IH]; cbn; [ constructor | ].
  destruct (Review.id x =? review_id)%string; constructor; auto.
Qed.

(** ** Invariants of the service *)

(** X4. Whatever requests are served, and whichever of their commits fail,
    the ids of the reviews stay pairwise distinct. *)
Theorem serve_all_keeps_ids_unique (rqs : list (request * list bool)) (db : DB) :
  NoDup (review_ids db) -> NoDup (review_ids (serve_all rqs db)).
Proof.
  revert db. induction rqs as [| [rq fs] rqs IH]; intros db Hnd; cbn [serve_all].
  - exact Hnd.
  - apply IH. unfold review_ids in *.
    exact (review_step_ids _ _ (serve_review_step rq fs db) Hnd).
Qed.

Lemma serve_all_keeps_ids_unique_witness :
  NoDup (review_ids (serve_all sample_requests pending_db)).
Proof.
  apply (serve_all_keeps_ids_unique sample_requests pending_db).
  repeat constructor; cbn; intuition discriminate.
Defined.

(** X5. Whatever requests are served, a review stays at its place in the
    table with the content it was created with: only its status and its
    helpfulness can differ.  Its status is the one it had, or it was pending
    and is now approved or rejected; so a status other than pending is never
    left. *)
Theorem serve_all_lifecycle (rqs : list (request * list bool)) (db : DB)
        (n : nat) (r : Review.t) :
  nth_error (reviews db) n = Some r ->
  exists r',
    nth_error (reviews (serve_all rqs db)) n = Some r'
    /\ same_content r r'
    /\ (Review.status r' = Review.status r
        \/ (Review.status r = "pending"%string
            /\ (Review.status r' = "approved"%string
                \/ Review.status r' = "rejected"%string)))
    /\ (Review.status r <> "pending"%string -> Review.status r' = Review.status r).
Proof.
  revert db r. induction rqs as [| [rq fs] rqs IH]; intros db r Hn; cbn [serve_all].
  - exists r. repeat split; auto.
  - destruct (review_step_nth _ _ n r (serve_review_step rq fs db) Hn)
      as (r1 & Hn1 & Hc1 & Hs1).
    destruct (IH _ _ Hn1) as (r2 & Hn2 & Hc2 & Hs2 & Hterm).
    exists r2. split; [ exact Hn2 | ].
    assert (Hc : same_content r r2).
    { unfold same_content in *.
      destruct Hc1 as (? & ? & ? & ? & ? & ? & ? & ? & ? & ?),
               Hc2 as (? & ? & ? & ? & ? & ? & ? & ? & ? & ?).
      repeat split; congruence. }
    assert (Hs : Review.status r2 = Review.status r
                 \/ (Review.status r = "pending"%string
                     /\ (Review.status r2 = "approved"%string
                         \/ Review.status r2 = "rejected"%string))).
    { destruct Hs1 as [E1 | (Hp & Hmod)].
      - rewrite <- E1. destruct Hs2 as [E2 | (Hp2 & Hmod2)]; [ now left | ].
        right. auto.
      - right. split; [ exact Hp | ].
        rewrite Hterm; [ exact Hmod | ]. destruct Hmod as [-> | ->]; discriminate. }
    split; [ exact Hc | split; [ exact Hs | ] ].
    intros Hnp. destruct Hs as [E | [Hp _]]; congruence.
Qed.

Lemma serve_all_lifecycle_witness :
  exists r',
    nth_error (reviews (serve_all sample_requests pending_db)) 0 = Some r'
    /\ same_content (sample_review "R1" 5 "pending" (JObj [("durability", JInt 4)])) r'.
Proof.
  destruct (serve_all_lifecycle sample_requests pending_db 0
              (sample_review "R1" 5 "pending" (JObj [("durability", JInt 4)]))
              eq_refl) as (r' & Hn & Hc & _).
  exact (ex_intro _ r' (conj Hn Hc)).
Defined.

Lemma to_float_raise x e : to_float x = Raise e -> e = OverflowError.
Proof.
  destruct x as [z | f]; cbn; [ | discriminate ].
  unfold float_of_int. destruct (_ <=? _); now intros [=].
Qed.

Lemma py_add_raise x y e : py_add x y = Raise e -> e = OverflowError.
Proof.
  assert (H : (let* fx := to_float x in
               let* fy := to_float y in Ok (NFloat (PrimFloat.add fx fy))) = Raise e ->
              e = OverflowError).
  { destruct (to_float x) eqn:Hx; cbn [rbind].
    - destruct (to_float y) eqn:Hy; cbn [rbind]; [ discriminate | ].
      intros [= <-]. eapply to_float_raise; eauto.
    - intros [= <-]. eapply to_float_raise; eauto. }
  destruct x, y; try exact H. discriminate.
Qed.

Lemma py_truediv_raise x y e :
  py_truediv x y = Raise e -> e = OverflowError \/ e = ZeroDivisionError.
Proof.
  assert (H : (let* fx := to_float x in
               let* fy := to_float y in
               if PrimFloat.eqb fy PrimFloat.zero then Raise ZeroDivisionError
               else Ok (NFloat (PrimFloat.div fx fy))) = Raise e ->
              e = OverflowError \/ e = ZeroDivisionError).
  { destruct (to_float x) eqn:Hx; cbn [rbind].
    - destruct (to_float y) eqn:Hy; cbn [rbind].
      + destruct (PrimFloat.eqb _ _); [ intros [= <-]; auto | discriminate ].
      + intros [= <-]. left. eapply to_float_raise; eauto.
    - intros [= <-]. left. eapply to_float_raise; eauto. }
  destruct x as [a | fx], y as [b | fy]; try exact H.
  cbn [py_truediv]. unfold int_truediv.
  destruct (b =? 0); [ intros [= <-]; auto | ].
  destruct (_ <=? _); [ intros [= <-]; auto | discriminate ].
Qed.

Lemma add_items_raise items : forall acc e,
  add_items items acc = Raise e -> e = TypeError \/ e = OverflowError.
Proof.
  induction items as [| [k v] items IH]; intros acc e; cbn; [ discriminate | ].
  destruct (match dict_get k acc with Some en => en | None => (NInt 0, 0) end) as [s c].
  destruct (as_num v) as [x |]; [ | intros [= <-]; auto ].
  destruct (py_add s x) as [s' |] eqn:Hadd; cbn [rbind].
  - apply IH.
  - intros [= <-]. right. eapply py_add_raise; eauto.
Qed.

Lemma collect_attributes_raise reviews : forall acc e,
  collect_attributes reviews acc = Raise e ->
  e = TypeError \/ e = OverflowError \/ e = AttributeError.
Proof.
  induction reviews as [| r reviews IH]; intros acc e; cbn; [ discriminate | ].
  destruct (truthy (Review.attributes r)); [ | apply IH ].
  destruct (Review.attributes r); try (intros [= <-]; auto).
  destruct (add_items kv acc) as [acc1 |] eqn:H1; cbn [rbind]; [ apply IH | ].
  intros [= <-]. destruct (add_items_raise _ _ _ H1); auto.
Qed.

Lemma attribute_averages_raise reviews e :
  attribute_averages_of reviews = Raise e -> e <> KeyError.
Proof.
  unfold attribute_averages_of.
  destruct (collect_attributes reviews []) as [attributes |] eqn:Hc; cbn [rbind].
  - intros H. apply average_attributes_raise in H as (k & [s c] & _ & Hr).
    unfold average_of in Hr. destruct (c >? 0); [ | discriminate ].
    destruct (py_truediv_raise _ _ _ Hr) as [-> | ->]; discriminate.
  - intros [= <-].
    destruct (collect_attributes_raise _ _ _ Hc) as [-> | [-> | ->]]; discriminate.
Qed.

(** X6. The recomputation fails with [KeyError] exactly when one of the
    reviews that it reads has a rating that is not one of 1..5: the lookup
    [distribution[str(review.rating)]] of line 90 is the only place that
    raises it. *)
Theorem summarize_key_error (product_id : string) (now : datetime)
        (reviews : list Review.t) :
  summarize product_id now reviews = Raise KeyError
  <-> forallb rating_in_range reviews = false.
Proof.
  destruct reviews as [| r0 rest]; [ split; discriminate | ].
  rewrite summarize_nonempty by discriminate.
  destruct (forallb rating_in_range (r0 :: rest)); [ | split; reflexivity ].
  split; [ | discriminate ].
  destruct (py_truediv _ _) as [average |] eqn:Hdiv; cbn [rbind].
  - destruct (attribute_averages_of (r0 :: rest)) as [averages |] eqn:Havg;
      cbn [rbind]; [ discriminate | ].
    intros [= H]. now apply attribute_averages_raise in Havg.
  - intros [= H]. destruct (py_truediv_raise _ _ _ Hdiv); congruence.
Qed.

(** ** Summaries and approvals *)

Lemma get_put_summary_other sm l product_id :
  ReviewSummary.product_id sm <> product_id ->
  find (fun x => (ReviewSummary.product_id x =? product_id)%string) (put_summary sm l)
  = find (fun x => (ReviewSummary.product_id x =? product_id)%string) l.
Proof.
  intros Hne. induction l as [| x l IH]; cbn.
  - apply String.eqb_neq in Hne. now rewrite Hne.
  - destruct (String.eqb_spec (ReviewSummary.product_id x) (ReviewSummary.product_id sm))
      as [E | E]; cbn.
    + apply String.eqb_neq in Hne. rewrite Hne.
      rewrite E. now rewrite Hne.
    + now rewrite IH.
Qed.

Lemma serve_summaries rq fs db :
  summaries (snd (serve rq fs db)) = summaries db
  \/ exists review_id now r sm,
       rq = ApproveReview review_id now
       /\ get_review review_id db = Some r
       /\ ReviewSummary.product_id sm = Review.product_id r
       /\ summaries (snd (serve rq fs db)) = put_summary sm (summaries db).
Proof.
  unfold serve. destruct rq as [data now | review_id now | review_id
                                | review_id data now | review_id data]; cbn [handler].
  - left. rewrite create_review_run.
    destruct (d_id data), (d_product_id data), (d_user_id data), (d_title data),
             (d_rating data) as [rating |]; try reflexivity.
    destruct ((1 <=? rating) && (rating <=? 5)); [ | reflexivity ].
    destruct fs as [| [|] fs]; try reflexivity; destruct (get_review _ db); reflexivity.
  - rewrite approve_review_run.
    destruct (get_review review_id db) as [r |] eqn:Hget; [ | now left ].
    destruct (Review.status r =? "pending")%string; [ | now left ].
    cbv zeta. destruct fs as [| [|] fs]; try (now left);
      (destruct (summarize _ _ _) as [sm |] eqn:Hsm; [ | now left ]).
    + right. exists review_id, now, r, sm. apply summarize_ok in Hsm as [Hid _]. auto.
    + destruct fs as [| [|] fs]; try (now left);
        right; exists review_id, now, r, sm; apply summarize_ok in Hsm as [Hid _]; auto.
  - left. rewrite reject_review_run.
    destruct (get_review review_id db) as [r |]; [ | reflexivity ].
    destruct (Review.status r =? "pending")%string; [ | reflexivity ].
    destruct fs as [| [|] fs]; reflexivity.
  - left. rewrite create_review_response_run.
    destruct (get_review review_id db); [ | reflexivity ].
    destruct (rd_id data) as [id |], (rd_user_id data), (rd_comment data); try reflexivity.
    destruct fs as [| [|] fs]; try reflexivity; destruct (response_conflict id db);
      reflexivity.
  - left. rewrite update_review_helpfulness_run.
    destruct (get_review review_id db); [ | reflexivity ].
    destruct fs as [| [|] fs]; reflexivity.
Qed.

(** X7. The summary of a product is written by nothing but the approval of
    one of its reviews: a request that is not the approval of a review of
    the product leaves the summary of the product as it was, and no request
    ever removes a summary. *)
Theorem serve_summary_frame (rq : request) (fs : list bool) (db : DB)
        (product_id : string) :
  ((forall review_id now r,
      rq = ApproveReview review_id now ->
      get_review review_id db = Some r ->
      Review.product_id r <> product_id) ->
   get_summary product_id (snd (serve rq fs db)) = get_summary product_id db)
  /\ (get_summary product_id db <> None ->
      get_summary product_id (snd (serve rq fs db)) <> None).
Proof.
  unfold get_summary.
  destruct (serve_summaries rq fs db) as [-> | (review_id & now & r & sm & Hrq & Hget & Hid & ->)].
  - split; auto.
  - split.
    + intros Hother. apply get_put_summary_other. rewrite Hid. eauto.
    + intros Hsome. destruct (string_dec (ReviewSummary.product_id sm) product_id) as [<- | Hne].
      * now rewrite get_put_summary.
      * now rewrite get_put_summary_other.
Qed.

Lemma serve_summary_frame_witness :
  get_summary "P" (snd (serve (RejectReview "R2") [] sample_db))
  = get_summary "P" sample_db.
Proof.
  apply (proj1 (serve_summary_frame (RejectReview "R2") [] sample_db "P")).
  intros review_id now r Hrq. discriminate Hrq.
Defined.

Lemma summarize_total product_id now l sm :
  summarize product_id now l = Ok sm ->
  ReviewSummary.total_reviews sm = Z.of_nat (List.length l)
  /\ ReviewSummary.last_updated sm = now.
Proof.
  destruct l as [| r0 rest].
  - cbn. now intros [= <-].
  - rewrite summarize_nonempty by discriminate.
    destruct (forallb _ _); [ | discriminate ].
    destruct (py_truediv _ _); [ | discriminate ]. cbn [rbind].
    destruct (attribute_averages_of _); [ | discriminate ]. now intros [= <-].
Qed.

Lemma approved_after_approval review_id product_id l r :
  find (fun x => (Review.id x =? review_id)%string) l = Some r ->
  Review.status r = "pending"%string ->
  Review.product_id r = product_id ->
  List.length
    (filter (fun x => (Review.product_id x =? product_id)%string
                      && (Review.status x =? "approved")%string)
            (update_row review_id (Review.with_status "approved") l))
  = S (List.length
         (filter (fun x => (Review.product_id x =? product_id)%string
                           && (Review.status x =? "approved")%string) l)).
Proof.
  intros Hfind Hst Hp. induction l as [| x l IH]; cbn in Hfind |- *; [ discriminate | ].
  destruct (Review.id x =? review_id)%string.
  - injection Hfind as ->. cbn. rewrite Hp, Hst, String.eqb_refl. cbn. reflexivity.
  - cbn. destruct ((Review.product_id x =? product_id)%string
                   && (Review.status x =? "approved")%string); cbn; now rewrite IH.
Qed.

Lemma product_reviews_query_default product_id db :
  product_reviews_query product_id None db = approved_reviews product_id db.
Proof.
  unfold product_reviews_query, approved_reviews. cbn. apply filter_filter.
Qed.

(** X8. An approval answered 200 leaves a summary of the product whose
    [total_reviews] is one more than the number of reviews of the product
    that were approved before, which is the total that the listing of the
    product then reports by default; its [last_updated] is the time of the
    approval, and the summary route answers with it. *)
Theorem approve_review_counts (review_id : string) (now : datetime)
        (fs fs' : list bool) (db : DB) (r : Review.t) :
  get_review review_id db = Some r ->
  code (fst (run_request (approve_review review_id now) fs db)) = 200 ->
  exists sm,
    get_summary (Review.product_id r)
                (snd (run_request (approve_review review_id now) fs db)) = Some sm
    /\ ReviewSummary.total_reviews sm
       = Z.of_nat (List.length (approved_reviews (Review.product_id r) db)) + 1
    /\ ReviewSummary.total_reviews sm
       = listing_total (Review.product_id r) None
                       (snd (run_request (approve_review review_id now) fs db))
    /\ ReviewSummary.last_updated sm = now
    /\ run_request (get_product_review_summary (Review.product_id r)) fs'
                   (snd (run_request (approve_review review_id now) fs db))
       = (mkResponse 200 (summary_body sm),
          snd (run_request (approve_review review_id now) fs db)).
Proof.
  intros Hget. rewrite approve_review_run, Hget.
  destruct (String.eqb_spec (Review.status r) "pending") as [Hst | _];
    [ | cbn; discriminate ].
  cbv zeta.
  assert (Hcount :
            List.length (approved_reviews (Review.product_id r)
                           (with_review_status review_id "approved" db))
            = S (List.length (approved_reviews (Review.product_id r) db))).
  { unfold approved_reviews, with_review_status. cbn [reviews].
    now apply approved_after_approval with (r := r). }
  assert (Hdone : forall sm,
            summarize (Review.product_id r) now
              (approved_reviews (Review.product_id r)
                 (with_review_status review_id "approved" db)) = Ok sm ->
            let db' := mkDB (reviews (with_review_status review_id "approved" db))
                            (responses (with_review_status review_id "approved" db))
                            (put_summary sm
                               (summaries (with_review_status review_id "approved" db))) in
            get_summary (Review.product_id r) db' = Some sm
            /\ ReviewSummary.total_reviews sm
               = Z.of_nat (List.length (approved_reviews (Review.product_id r) db)) + 1
            /\ ReviewSummary.total_reviews sm = listing_total (Review.product_id r) None db'
            /\ ReviewSummary.last_updated sm = now
            /\ run_request (get_product_review_summary (Review.product_id r)) fs' db'
               = (mkResponse 200 (summary_body sm), db')).
  { intros sm Hsm db'.
    destruct (summarize_total _ _ _ _ Hsm) as [Htotal Hnow].
    apply summarize_ok in Hsm as [Hid _].
    assert (Hlook : get_summary (Review.product_id r) db' = Some sm).
    { unfold get_summary, db'. cbn [summaries]. rewrite <- Hid. apply get_put_summary. }
    split; [ exact Hlook | ]. split; [ rewrite Htotal, Hcount; lia | ].
    split; [ | split; [ exact Hnow | ] ].
    - unfold listing_total. rewrite product_reviews_query_default.
      rewrite Htotal. reflexivity.
    - unfold run_request, get_product_review_summary, open_session. cbn [work].
      now rewrite Hlook. }
  destruct fs as [| [|] fs]; try (cbn; discriminate);
    (destruct (summarize _ _ _) as [sm |] eqn:Hsm; [ | cbn; discriminate ]).
  - intros _. exists sm. exact (Hdone sm eq_refl).
  - destruct fs as [| [|] fs]; try (cbn; discriminate);
      intros _; exists sm; exact (Hdone sm eq_refl).
Qed.

Lemma approve_review_counts_witness :
  exists sm,
    get_summary "P" (snd (run_request (approve_review "R2" 100) [] pending_db)) = Some sm
    /\ ReviewSummary.total_reviews sm
       = Z.of_nat (List.length (approved_reviews "P" pending_db)) + 1.
Proof.
  destruct (approve_review_counts "R2" 100 [] [] pending_db
              (sample_review "R2" 3 "pending" JNull) eq_refl eq_refl)
    as (sm & H1 & H2 & _).
  exact (ex_intro _ sm (conj H1 H2)).
Defined.

(** ** The moderation queue *)

Lemma filter_all {A : Type} (f : A -> bool) (l : list A) :
  (forall x, In x l -> f x = true) -> filter f l = l.
Proof.
  induction l as [| x l IH]; cbn; intros H; [ reflexivity | ].
  rewrite (H x (or_introl eq_refl)), IH; auto.
Qed.

Lemma pending_after_moderation review_id st l r :
  NoDup (map Review.id l) ->
  find (fun x => (Review.id x =? review_id)%string) l = Some r ->
  st <> "pending"%string ->
  filter (fun x => (Review.status x =? "pending")%string)
         (update_row review_id (Review.with_status st) l)
  = filter (fun x => negb (Review.id x =? review_id)%string)
           (filter (fun x => (Review.status x =? "pending")%string) l).
Proof.
  intros Hnd Hfind Hst. induction l as [| x l IH]; cbn in Hfind |- *; [ discriminate | ].
  inversion Hnd as [| ? ? Hx Hnd']; subst.
  destruct (String.eqb_spec (Review.id x) review_id) as [E | E].
  - injection Hfind as ->. cbn [filter Review.status Review.with_status].
    apply String.eqb_neq in Hst. rewrite Hst.
    assert (Hrest : filter (fun y => negb (Review.id y =? review_id)%string)
                           (filter (fun y => (Review.status y =? "pending")%string) l)
                    = filter (fun y => (Review.status y =? "pending")%string) l).
    { apply filter_all. intros y Hy. apply filter_In in Hy as [Hy _].
      apply negb_true_iff, String.eqb_neq. intros Ey. apply Hx. rewrite E, <- Ey.
      now apply in_map. }
    destruct (Review.status r =? "pending")%string; cbn [filter].
    + apply String.eqb_eq in E. rewrite E. cbn [negb]. now rewrite Hrest.
    + now rewrite Hrest.
  - cbn [filter]. destruct (Review.status x =? "pending")%string; cbn [filter].
    + apply String.eqb_neq in E. rewrite E. cbn [negb]. f_equal. now apply IH.
    + now apply IH.
Qed.

(** X9. With distinct ids in the table, a moderation answered 200 takes the
    review out of the moderation queue and leaves every other pending review
    in it, in the same order. *)
Theorem moderation_leaves_queue (review_id : string) (now : datetime)
        (fs : list bool) (db : DB) :
  NoDup (review_ids db) ->
  (code (fst (run_request (approve_review review_id now) fs db)) = 200 ->
   pending_reviews (snd (run_request (approve_review review_id now) fs db))
   = filter (fun x => negb (Review.id x =? review_id)%string) (pending_reviews db))
  /\ (code (fst (run_request (reject_review review_id) fs db)) = 200 ->
      pending_reviews (snd (run_request (reject_review review_id) fs db))
      = filter (fun x => negb (Review.id x =? review_id)%string) (pending_reviews db)).
Proof.
  intros Hnd. rewrite approve_review_run, reject_review_run.
  destruct (get_review review_id db) as [r |] eqn:Hget; [ | split; cbn; discriminate ].
  destruct (Review.status r =? "pending")%string; [ | split; cbn; discriminate ].
  cbv zeta. unfold pending_reviews, review_ids in *.
  pose proof (pending_after_moderation review_id "approved" _ r Hnd Hget) as Ha.
  pose proof (pending_after_moderation review_id "rejected" _ r Hnd Hget) as Hr.
  split.
  - destruct fs as [| [|] fs]; try (cbn; discriminate);
      (destruct (summarize _ _ _); [ | cbn; discriminate ]).
    + intros _. cbn [snd reviews with_review_status]. apply Ha. discriminate.
    + destruct fs as [| [|] fs]; try (cbn; discriminate);
        intros _; cbn [snd reviews with_review_status]; apply Ha; discriminate.
  - destruct fs as [| [|] fs]; try (cbn; discriminate);
      intros _; cbn [snd reviews with_review_status]; apply Hr; discriminate.
Qed.

Lemma moderation_leaves_queue_witness :
  pending_reviews (snd (run_request (reject_review "R1") [] pending_db))
  = filter (fun x => negb (Review.id x =? "R1")%string) (pending_reviews pending_db).
Proof.
  refine (proj2 (moderation_leaves_queue "R1" 100 [] pending_db _) eq_refl).
  repeat constructor; cbn; intuition discriminate.
Defined.

(** ** Requests on a review that does not exist *)

(** X10. On an id that no review has, the approval, the rejection, the
    helpfulness update and the creation of a response are answered 404 and
    change nothing, whatever the body holds. *)
Theorem unknown_review_not_found (review_id : string) (now : datetime)
        (fs : list bool) (db : DB)
        (likes : HelpfulnessData) (response : ResponseData) :
  get_review review_id db = None ->
  run_request (approve_review review_id now) fs db
  = (mkResponse 404 (error "Not Found"), db)
  /\ run_request (reject_review review_id) fs db
     = (mkResponse 404 (error "Not Found"), db)
  /\ run_request (update_review_helpfulness review_id likes) fs db
     = (mkResponse 404 (error "Not Found"), db)
  /\ run_request (create_review_response review_id response now) fs db
     = (mkResponse 404 (error "Not Found"), db).
Proof.
  intros Hget.
  rewrite approve_review_run, reject_review_run, update_review_helpfulness_run,
    create_review_response_run, Hget.
  repeat split.
Qed.

Lemma unknown_review_not_found_witness :
  run_request (create_review_response "R7"
                 (mkResponseData None None None None None None) 100) [] pending_db
  = (mkResponse 404 (error "Not Found"), pending_db).
Proof.
  exact (proj2 (proj2 (proj2
           (unknown_review_not_found "R7" 100 [] pending_db
              (mkHelpfulnessData None None)
              (mkResponseData None None None None None None) eq_refl)))).
Defined.

(** ** Responses *)

(** X11. A response to an existing review whose body has the three required
    keys is answered 201 or 500.  Answered 201, its id was new, the reviews
    and the summaries are untouched, and the response is listed last under
    the review of the URL, active, dated by the clock and with the fields of
    the body, whatever the body holds under [review_id] or [status]; the
    listing of every other review is as before.  Answered 500, nothing is
    stored.  It is answered 201 when the commit goes through and the id is
    new. *)
Theorem create_review_response_listed (review_id : string) (data : ResponseData)
        (now : datetime) (fs : list bool) (db : DB) (r : Review.t)
        (id user_id comment : string) :
  get_review review_id db = Some r ->
  rd_id data = Some id ->
  rd_user_id data = Some user_id ->
  rd_comment data = Some comment ->
  let out := run_request (create_review_response review_id data now) fs db in
  let response :=
    ReviewResponse.mk id review_id user_id comment now
      (match rd_is_seller data with Some b => b | None => false end) "active" in
  (code (fst out) = 201 \/ code (fst out) = 500)
  /\ (code (fst out) = 500 -> snd out = db)
  /\ (code (fst out) = 201 ->
      response_conflict id db = false
      /\ reviews (snd out) = reviews db
      /\ summaries (snd out) = summaries db
      /\ listed_responses review_id (snd out)
         = listed_responses review_id db ++ [response_entry response]
      /\ forall other,
           other <> review_id ->
           listed_responses other (snd out) = listed_responses other db)
  /\ (first_commit_ok fs -> response_conflict id db = false -> code (fst out) = 201).
Proof.
  intros Hget Hid Huser Hcomment out response. subst out.
  rewrite create_review_response_run, Hget, Hid, Huser, Hcomment.
  fold response. unfold first_commit_ok.
  assert (Hlisted :
            listed_responses review_id
              (mkDB (reviews db) (responses db ++ [response]) (summaries db))
            = listed_responses review_id db ++ [response_entry response]
            /\ forall other,
                 other <> review_id ->
                 listed_responses other
                   (mkDB (reviews db) (responses db ++ [response]) (summaries db))
                 = listed_responses other db).
  { unfold listed_responses, active_responses, review_responses. cbn [responses].
    split.
    - rewrite !filter_app, map_app. cbn. now rewrite String.eqb_refl.
    - intros other Hother. rewrite !filter_app. cbn.
      apply String.eqb_neq in Hother. rewrite String.eqb_sym, Hother. cbn.
      now rewrite app_nil_r. }
  destruct Hlisted as [Hmine Hothers].
  destruct fs as [| [|] fs]; cbn [hd];
    destruct (response_conflict id db); cbn [fst snd code server_error];
    (split; [ auto | ]);
    (split; [ intros; try discriminate; reflexivity | ]);
    (split; [ intros H; try discriminate H; cbn [reviews summaries]; auto
            | intros; try discriminate; reflexivity ]).
Qed.

Lemma create_review_response_listed_witness :
  listed_responses "R1"
    (snd (run_request
            (create_review_response "R1"
               (mkResponseData (Some "A9") (Some "seller") (Some "sorry") (Some true)
                               (Some (JStr "R2")) (Some (JStr "inactive")))
               30)
            [] late_first_db))
  = listed_responses "R1" late_first_db
    ++ [response_entry (ReviewResponse.mk "A9" "R1" "seller" "sorry" 30 true "active")].
Proof.
  destruct (create_review_response_listed "R1"
              (mkResponseData (Some "A9") (Some "seller") (Some "sorry") (Some true)
                              (Some (JStr "R2")) (Some (JStr "inactive")))
              30 [] late_first_db (sample_review "R1" 5 "approved" JNull)
              "A9" "seller" "sorry" eq_refl eq_refl eq_refl eq_refl)
    as (_ & _ & Hcreated & Hok).
  exact (proj1 (proj2 (proj2 (proj2 (Hcreated (Hok eq_refl eq_refl)))))).
Defined.

(** X12. A response to an existing review whose body lacks a required key
    is answered 400, naming the first key that is missing in the order id,
    user_id, comment, and nothing is stored; a body with the three keys is
    never answered 400. *)
Theorem create_review_response_rejects (review_id : string) (data : ResponseData)
        (now : datetime) (fs : list bool) (db : DB) (r : Review.t) :
  get_review review_id db = Some r ->
  (forall field,
     first_missing_response data = Some field ->
     run_request (create_review_response review_id data now) fs db
     = (missing_field field, db))
  /\ (first_missing_response data = None ->
      code (fst (run_request (create_review_response review_id data now) fs db)) <> 400).
Proof.
  intros Hget. rewrite create_review_response_run, Hget. unfold first_missing_response.
  destruct (rd_id data) as [id |], (rd_user_id data) as [user_id |],
           (rd_comment data) as [comment |]; cbn;
    try (split; [ intros field [= <-]; reflexivity | discriminate ]).
  split; [ discriminate | intros _ ].
  destruct fs as [| [|] fs]; try (cbn; discriminate);
    destruct (response_conflict id db); cbn; discriminate.
Qed.

Lemma create_review_response_rejects_witness :
  run_request (create_review_response "R1"
                 (mkResponseData (Some "A9") None None None None None) 30)
              [] late_first_db
  = (missing_field "user_id", late_first_db).
Proof.
  exact (proj1 (create_review_response_rejects "R1"
                  (mkResponseData (Some "A9") None None None None None) 30 []
                  late_first_db (sample_review "R1" 5 "approved" JNull) eq_refl)
               "user_id" eq_refl).
Defined.

(** ** What the recomputation reads *)

Lemma count_ratings_rated l : forall l' d,
  map rated l = map rated l' -> count_ratings l d = count_ratings l' d.
Proof.
  induction l as [| r l IH]; intros [| r' l'] d; cbn; try discriminate; [ reflexivity | ].
  intros [= Hr _ Hrest]. rewrite Hr. destruct (dict_get _ d); [ | reflexivity ].
  now apply IH.
Qed.

Lemma collect_attributes_rated l : forall l' acc,
  map rated l = map rated l' -> collect_attributes l acc = collect_attributes l' acc.
Proof.
  induction l as [| r l IH]; intros [| r' l'] acc; cbn; try discriminate; [ reflexivity | ].
  intros [= _ Ha Hrest]. rewrite Ha. destruct (truthy (Review.attributes r')).
  - destruct (Review.attributes r'); try reflexivity.
    destruct (add_items kv acc); cbn [rbind]; [ now apply IH | reflexivity ].
  - now apply IH.
Qed.

Lemma map_filter_update_row {B : Type} (g : Review.t -> B) (P : Review.t -> bool)
      review_id f l :
  (forall r, P (f r) = P r) -> (forall r, g (f r) = g r) ->
  map g (filter P (update_row review_id f l)) = map g (filter P l).
Proof.
  intros HP Hg. induction l as [| x l IH]; cbn; [ reflexivity | ].
  destruct (Review.id x =? review_id)%string; cbn.
  - rewrite HP. destruct (P x); cbn; now rewrite ?Hg.
  - destruct (P x); cbn; now rewrite IH.
Qed.

(** X13. The recomputation reads nothing of a review but its rating and its
    attributes: two lists of reviews that agree on these, review by review,
    get the same summary.  So an update of the helpfulness of a review
    changes nothing of the summary that would be computed for any product. *)
Theorem summarize_reads_rating_and_attributes (product_id : string)
        (now : datetime) :
  (forall l l',
     map rated l = map rated l' ->
     summarize product_id now l = summarize product_id now l')
  /\ (forall review_id data fs db,
        summarize product_id now
          (approved_reviews product_id
             (snd (run_request (update_review_helpfulness review_id data) fs db)))
        = summarize product_id now (approved_reviews product_id db)).
Proof.
  assert (Hext : forall l l',
            map rated l = map rated l' ->
            summarize product_id now l = summarize product_id now l').
  { intros l l' Hmap. unfold summarize, attribute_averages_of.
    rewrite (count_ratings_rated l l' _ Hmap), (collect_attributes_rated l l' _ Hmap).
    destruct l, l'; try discriminate; reflexivity. }
  split; [ exact Hext | ].
  intros review_id data fs db. apply Hext.
  rewrite update_review_helpfulness_run.
  destruct (get_review review_id db) as [r |]; [ | reflexivity ].
  destruct fs as [| [|] fs]; reflexivity.
Qed.

Lemma summarize_reads_rating_and_attributes_witness :
  summarize "P" 100 (reviews sample_db)
  = summarize "P" 100
      [Review.mk "Z1" "Q" "someone" "other" (Some "text") 5 77 (JArr [])
                 [("likes", JInt 12)] "rejected" true (JObj [("durability", JInt 4)]);
       Review.mk "Z2" "Q" "someone" "other" None 3 78 JNull [] "pending" false JNull].
Proof.
  exact (proj1 (summarize_reads_rating_and_attributes "P" 100) _ _ eq_refl).
Defined.

(** ** Approvals that cannot fail *)

Lemma ordinary_int_scored r : ordinary r -> int_scored r.
Proof.
  unfold ordinary, int_scored. intros [_ H].
  destruct (Review.attributes r); try exact H.
  destruct H as [Hnd Hall]. split; [ exact Hnd | ].
  eapply Forall_impl; [ | exact Hall ]. intros item (z & Hz & _). now exists z.
Qed.

Lemma values_of_ordinary a reviews :
  Forall ordinary reviews -> Forall ordinary_score (values_of a reviews).
Proof.
  induction 1 as [| r reviews Hr _ IH]; cbn [values_of flat_map]; [ constructor | ].
  apply Forall_app. split; [ | exact IH ].
  destruct Hr as [_ Hr]. unfold attr_value.
  destruct (Review.attributes r) as [| | | | | | items]; try constructor.
  destruct Hr as [_ Hall]. induction Hall as [| [k v] items Hv _ IHi]; cbn.
  - constructor.
  - destruct (k =? a)%string; [ repeat constructor; exact Hv | exact IHi ].
Qed.

Lemma int_sum_bound vs :
  Forall ordinary_score vs ->
  Z.abs (int_sum vs) <= (float_overflow_bound - 1) * Z.of_nat (List.length vs).
Proof.
  unfold int_sum. induction 1 as [| v vs (z & Hz & Hb) _ IH]; cbn [fold_right List.length].
  - cbn. lia.
  - unfold score_of at 1. rewrite Hz. rewrite Nat2Z.inj_succ.
    revert Hb IH. generalize float_overflow_bound. intros B Hb IH. lia.
Qed.

Lemma summarize_ordinary product_id now reviews :
  Forall ordinary reviews -> exists sm, summarize product_id now reviews = Ok sm.
Proof.
  intros Hall.
  assert (Hint : Forall int_scored reviews)
    by (eapply Forall_impl; [ | exact Hall ]; apply ordinary_int_scored).
  assert (Hvalid : forallb rating_in_range reviews = true).
  { apply forallb_forall. intros r Hin. rewrite Forall_forall in Hall.
    exact (proj1 (Hall r Hin)). }
  destruct (attribute_averages_total reviews) as [averages Havg].
  - eapply Forall_impl; [ | exact Hint ]. apply int_scored_typed.
  - intros a Hne. rewrite mean_of_int by exact Hint. cbn [py_truediv].
    pose proof (int_sum_bound _ (values_of_ordinary a reviews Hall)) as Hb.
    unfold int_truediv.
    destruct (Z.eqb_spec (Z.of_nat (List.length (values_of a reviews))) 0) as [E | _].
    { destruct (values_of a reviews); [ congruence | discriminate ]. }
    destruct (Z.leb_spec
                (float_overflow_bound * Z.abs (Z.of_nat (List.length (values_of a reviews))))
                (Z.abs (int_sum (values_of a reviews)))) as [Hover | _].
    + exfalso. revert Hb Hover. pose proof float_overflow_bound_large as HB. revert HB.
      generalize float_overflow_bound. intros B HB Hb Hover.
      assert (0 < Z.of_nat (List.length (values_of a reviews)))
        by (destruct (values_of a reviews); [ congruence | cbn; lia ]).
      nia.
    + cbn [rbind]. eauto.
  - destruct reviews as [| r0 rest] eqn:E; [ cbn; eauto | ].
    rewrite <- E in *. rewrite summarize_nonempty by (rewrite E; discriminate).
    rewrite Hvalid, Havg.
    destruct (int_truediv_small (weighted_total reviews) (Z.of_nat (List.length reviews)))
      as [q Hq].
    + rewrite E. cbn [List.length]. lia.
    + now apply weighted_total_bounds.
    + cbn [py_truediv]. rewrite Hq. cbn [rbind]. eauto.
Qed.

(** X14. In a database whose reviews are as the data model describes them
    (a rating in 1..5 and, for attributes, nothing or a dict of integer
    scores that a float can hold), the approval of a pending review is
    answered 200 whenever its two commits go through: the recomputation
    raises no exception. *)
Theorem approve_review_succeeds (review_id : string) (now : datetime)
        (fs : list bool) (db : DB) (r : Review.t) :
  get_review review_id db = Some r ->
  Review.status r = "pending"%string ->
  first_commit_ok fs ->
  second_commit_ok fs ->
  Forall ordinary (reviews db) ->
  code (fst (run_request (approve_review review_id now) fs db)) = 200
  /\ status_of review_id (snd (run_request (approve_review review_id now) fs db))
     = Some "approved"%string.
Proof.
  intros Hget Hst Hfirst Hsecond Hall. rewrite approve_review_run, Hget, Hst.
  cbn [String.eqb Ascii.eqb Bool.eqb]. cbv zeta.
  pose proof (status_of_with_review_status review_id "approved" db r Hget) as Hstatus.
  destruct (summarize_ordinary (Review.product_id r) now
              (approved_reviews (Review.product_id r)
                 (with_review_status review_id "approved" db))) as [sm Hsm].
  { apply Forall_forall. intros x Hin. unfold approved_reviews in Hin.
    apply filter_In in Hin as [Hin _]. cbn [with_review_status reviews] in Hin.
    assert (Hall' : Forall ordinary
                      (update_row review_id (Review.with_status "approved") (reviews db)))
      by (apply update_row_Forall; auto).
    rewrite Forall_forall in Hall'. auto. }
  rewrite Hsm. unfold first_commit_ok, second_commit_ok in *.
  destruct fs as [| [|] [| [|] fs]]; try discriminate; split; try reflexivity;
    exact Hstatus.
Qed.

Lemma approve_review_succeeds_witness :
  code (fst (run_request (approve_review "R1" 100) [] pending_db)) = 200
  /\ status_of "R1" (snd (run_request (approve_review "R1" 100) [] pending_db))
     = Some "approved"%string.
Proof.
  apply (approve_review_succeeds "R1" 100 [] pending_db
           (sample_review "R1" 5 "pending" (JObj [("durability", JInt 4)])));
    try reflexivity.
  repeat constructor; cbn; try tauto.
  exists 4. split; [ reflexivity | reflexivity ].
Defined.

(** ** The reviews of a user *)

Lemma review_step_user l l' user_id :
  review_step l l' ->
  exists later,
    map Review.id (filter (fun r => (Review.user_id r =? user_id)%string) l')
    = map Review.id (filter (fun r => (Review.user_id r =? user_id)%string) l) ++ later.
Proof.
  intros Hstep. destruct Hstep as [| review_id st r _ _ _ | r _ _ _].
  - exists []. now rewrite app_nil_r.
  - exists []. rewrite app_nil_r. now apply map_filter_update_row.
  - rewrite filter_app, map_app. eauto.
Qed.

(** X15. Whatever requests are served, the reviews that the service lists
    for a user are the ones it listed before, in the same order, followed by
    the ones created since: no request removes a review from its user or
    gives it to another. *)
Theorem serve_all_user_reviews (rqs : list (request * list bool)) (db : DB)
        (user_id : string) :
  exists later,
    map Review.id (user_reviews user_id (serve_all rqs db))
    = map Review.id (user_reviews user_id db) ++ later.
Proof.
  revert db. induction rqs as [| [rq fs] rqs IH]; intros db; cbn [serve_all].
  - exists []. now rewrite app_nil_r.
  - destruct (IH (snd (serve rq fs db))) as [later2 H2].
    destruct (review_step_user _ _ user_id (serve_review_step rq fs db)) as [later1 H1].
    exists (later1 ++ later2). unfold user_reviews in *. now rewrite H2, H1, app_assoc.
Qed.

(** ** All or nothing *)

(** X16. Every route that writes, the approval apart, stores all of its
    change or none of it: a creation of a review or of a response, a
    rejection or a helpfulness update that is not answered 200 or 201 has
    left the database as it was. *)
Theorem serve_all_or_nothing (rq : request) (fs : list bool) (db : DB) :
  (forall review_id now, rq <> ApproveReview review_id now) ->
  code (fst (serve rq fs db)) <> 200 ->
  code (fst (serve rq fs db)) <> 201 ->
  snd (serve rq fs db) = db.
Proof.
  intros Hrq. unfold serve.
  destruct rq as [data now | review_id now | review_id
                  | review_id data now | review_id data]; cbn [handler].
  - rewrite create_review_run.
    destruct (d_id data) as [id |], (d_product_id data), (d_user_id data),
             (d_title data), (d_rating data) as [rating |]; try reflexivity.
    destruct ((1 <=? rating) && (rating <=? 5)); [ | reflexivity ].
    destruct fs as [| [|] fs]; try reflexivity;
      destruct (get_review id db); try reflexivity; cbn; congruence.
  - now destruct (Hrq review_id now).
  - rewrite reject_review_run.
    destruct (get_review review_id db) as [r |]; [ | reflexivity ].
    destruct (Review.status r =? "pending")%string; [ | reflexivity ].
    destruct fs as [| [|] fs]; try reflexivity; cbn; congruence.
  - rewrite create_review_response_run.
    destruct (get_review review_id db); [ | reflexivity ].
    destruct (rd_id data) as [id |], (rd_user_id data), (rd_comment data); try reflexivity.
    destruct fs as [| [|] fs]; try reflexivity;
      destruct (response_conflict id db); try reflexivity; cbn; congruence.
  - rewrite update_review_helpfulness_run.
    destruct (get_review review_id db); [ | reflexivity ].
    destruct fs as [| [|] fs]; reflexivity.
Qed.

Lemma serve_all_or_nothing_witness :
  snd (serve (RejectReview "R1") [true] pending_db) = pending_db.
Proof.
  apply (serve_all_or_nothing (RejectReview "R1") [true] pending_db);
    [ intros review_id now | | ]; discriminate.
Defined.

(** ** Helpfulness, for ever *)

Lemma review_step_helpfulness l l' n r :
  review_step l l' ->
  nth_error l n = Some r ->
  exists r',
    nth_error l' n = Some r'
    /\ Review.id r' = Review.id r
    /\ Review.helpfulness r' = Review.helpfulness r.
Proof.
  intros Hstep Hn. destruct Hstep as [| review_id st r0 Hfind _ _ | x _ _ _].
  - eauto.
  - destruct (update_row_nth review_id (Review.with_status st) l r0 n r Hfind Hn)
      as [H | [-> H]]; eauto.
  - exists r. split; [ | auto ].
    rewrite nth_error_app1; [ exact Hn | ].
    apply nth_error_Some. congruence.
Qed.

Lemma review_step_default l l' :
  review_step l l' ->
  Forall (fun r => Review.helpfulness r = default_helpfulness) l ->
  Forall (fun r => Review.helpfulness r = default_helpfulness) l'.
Proof.
  intros Hstep Hall. destruct Hstep as [| review_id st r0 _ _ _ | x _ _ Hx].
  - exact Hall.
  - apply update_row_Forall; auto.
  - apply Forall_app. split; [ exact Hall | now constructor ].
Qed.

(** X17. No route writes the helpfulness of a review.  Whatever requests are
    served, helpfulness updates among them, a review keeps the counters it
    had; and when every review starts with the column default, every review,
    the ones created since included, has no likes and no dislikes. *)
Theorem serve_all_keeps_helpfulness (rqs : list (request * list bool)) (db : DB) :
  (forall n r,
     nth_error (reviews db) n = Some r ->
     exists r',
       nth_error (reviews (serve_all rqs db)) n = Some r'
       /\ Review.id r' = Review.id r
       /\ Review.helpfulness r' = Review.helpfulness r)
  /\ (Forall (fun r => Review.helpfulness r = default_helpfulness) (reviews db) ->
      Forall (fun r => Review.helpfulness r = default_helpfulness)
             (reviews (serve_all rqs db))).
Proof.
  revert db. induction rqs as [| [rq fs] rqs IH]; intros db; cbn [serve_all].
  - split; eauto.
  - destruct (IH (snd (serve rq fs db))) as [IHkeep IHdefault].
    pose proof (serve_review_step rq fs db) as Hstep. split.
    + intros n r Hn.
      destruct (review_step_helpfulness _ _ n r Hstep Hn) as (r1 & Hn1 & Hid1 & Hh1).
      destruct (IHkeep n r1 Hn1) as (r2 & Hn2 & Hid2 & Hh2).
      exists r2. repeat split; congruence.
    + intros Hall. apply IHdefault. exact (review_step_default _ _ Hstep Hall).
Qed.

Lemma serve_all_keeps_helpfulness_witness :
  exists r',
    nth_error
      (reviews
         (serve_all
            [(UpdateReviewHelpfulness "R1" (mkHelpfulnessData (Some (JInt 7)) None), []);
             (ApproveReview "R1" 100, []);
             (UpdateReviewHelpfulness "R1"
                (mkHelpfulnessData (Some (JInt 8)) (Some (JInt 1))), [])]
            pending_db)) 0 = Some r'
    /\ Review.id r' = "R1"%string
    /\ Review.helpfulness r' = [("likes", JInt 0); ("dislikes", JInt 0)].
Proof.
  exact (proj1 (serve_all_keeps_helpfulness
                  [(UpdateReviewHelpfulness "R1" (mkHelpfulnessData (Some (JInt 7)) None), []);
                   (ApproveReview "R1" 100, []);
                   (UpdateReviewHelpfulness "R1"
                      (mkHelpfulnessData (Some (JInt 8)) (Some (JInt 1))), [])]
                  pending_db)
               0%nat (sample_review "R1" 5 "pending" (JObj [("durability", JInt 4)]))
               eq_refl).
Defined.
